(** * crypto-portfolio-v2: price cache, refresh paths and portfolio endpoints

    A shallow embedding of [netlify/functions/cacheManager.js] and
    [netlify/functions/server.js], and the properties of the price-caching
    subsystem stated over it.

    JavaScript values are modelled as far as the code inspects them:
    numbers are rationals plus [NaN] (no infinities, no rounding of
    doubles), timestamps are integers (milliseconds), the [async] functions
    are run to completion one after another over an explicit [world] that
    holds the persisted list, the module variables [portfolioCache] and
    [lastApiCallTime], a logical clock and the answers of the price feed. *)

From Stdlib Require Import ZArith QArith Qround Qabs String List Sorted Bool Lia.
From stdpp Require Import base option gmap strings.
Import ListNotations.

Local Open Scope string_scope.
Local Open Scope list_scope.
Local Open Scope Z_scope.

(** ** JavaScript values *)

(** A JS number: a finite value or [NaN]. The arithmetic below keeps the
    rationals in lowest terms, so that equal numbers are equal terms. *)
Inductive number : Type :=
| Num (q : Q)
| NaN.

(** The values that reach a price or an amount field: JSON scalars, plain
    objects, and the one string the code itself writes there, ['N/A']. *)
#[warnings="-register-all"]
Inductive jsval : Type :=
| VUndef
| VNull
| VBool (b : bool)
| VNum (n : number)
| VNA
| VObj (fields : list (string * jsval)).

(** Strings the handlers build with library calls are kept symbolic:
    [ToFixed n d] stands for [n.toFixed(d)], [ToUpperCase s] for
    [s.toUpperCase()]. *)
Inductive text : Type :=
| Lit (s : string)
| ToFixed (n : number) (digits : nat)
| ToUpperCase (s : string).

Definition num_add (a b : number) : number :=
  match a, b with
  | Num x, Num y => Num (Qred (x + y))
  | _, _ => NaN
  end.

Definition num_mul (a b : number) : number :=
  match a, b with
  | Num x, Num y => Num (Qred (x * y))
  | _, _ => NaN
  end.

(** [a <= b] and [a >= b] on numbers; any comparison with [NaN] is false. *)
Definition num_le (a b : number) : bool :=
  match a, b with
  | Num x, Num y => Qle_bool x y
  | _, _ => false
  end.

Definition num_ge (a b : number) : bool := num_le b a.

Definition num_isNaN (n : number) : bool :=
  match n with
  | NaN => true
  | Num _ => false
  end.

(** ToBoolean. *)
Definition truthy (v : jsval) : bool :=
  match v with
  | VUndef | VNull => false
  | VBool b => b
  | VNum (Num q) => negb (Qeq_bool q 0)
  | VNum NaN => false
  | VNA => true
  | VObj _ => true
  end.

(** ToNumber. *)
Definition to_number (v : jsval) : number :=
  match v with
  | VUndef => NaN
  | VNull => Num 0
  | VBool true => Num 1
  | VBool false => Num 0
  | VNum n => n
  | VNA => NaN
  | VObj _ => NaN
  end.

(** The global [isNaN]: coerces its argument first. *)
Definition isNaN (v : jsval) : bool := num_isNaN (to_number v).

(** The global [parseFloat]: parses the string form of its argument, so
    only a number comes back as itself. *)
Definition parseFloat (v : jsval) : number :=
  match v with
  | VNum n => n
  | _ => NaN
  end.

(** [typeof v === 'number']. *)
Definition is_number (v : jsval) : bool :=
  match v with
  | VNum _ => true
  | _ => false
  end.

(** [v !== 'N/A']. *)
Definition not_NA (v : jsval) : bool :=
  match v with
  | VNA => false
  | _ => true
  end.

Fixpoint assoc (k : string) (fields : list (string * jsval)) : jsval :=
  match fields with
  | [] => VUndef
  | (k', v) :: rest => if String.eqb k k' then v else assoc k rest
  end.

(** [v.k] for a truthy [v]: own property of an object, [undefined] on a
    primitive. *)
Definition get_prop (v : jsval) (k : string) : jsval :=
  match v with
  | VObj fields => assoc k fields
  | _ => VUndef
  end.

(** [parseFloat(n.toFixed(d))]: [n] rounded to [d] decimals, ties away
    from zero. *)
Definition round_fixed (n : number) (d : nat) : number :=
  match n with
  | NaN => NaN
  | Num q =>
      let scale := inject_Z (10 ^ Z.of_nat d) in
      let m := Qfloor (Qabs q * scale + (1 # 2)) in
      let r := (inject_Z m / scale)%Q in
      Num (Qred (if Qle_bool 0 q then r else (- r)%Q))
  end.

(** ** Data model *)

Record price : Type := Price {
  usd : jsval;
  timestamp : Z }.

(** One holding, as stored in the portfolio list and in the cache. *)
Record item : Type := Item {
  coin : string;
  amount : number;
  name : option string;
  symbol : option string;
  lastPrice : option price }.

(** One element of the [/coins/markets] answer. *)
Record feed_coin : Type := FeedCoin {
  feed_id : string;
  current_price : jsval;
  feed_name : string;
  feed_symbol : string }.

(** [portfolioCache] starts as the object [{}] and is later an array. *)
Inductive cache : Type :=
| CacheObj
| CacheArr (l : list item).

Definition CACHE_DURATION : Z := 5 * 60 * 1000.
Definition API_CALL_INTERVAL : Z := 30 * 1000.

(** ** Effects *)

Inductive exn : Type :=
| TypeError
| AxiosError (status : option Z).

(** What [axios.get] settles to: the response data, or an error with
    [error.response.status] when there was a response. *)
Inductive axios_result : Type :=
| Resolve (data : list feed_coin)
| Reject (status : option Z).

(** The [ids] parameter of a request: [coinIds.join(',')] or one id. *)
Inductive ids_param : Type :=
| IdsJoined (coinIds : list string)
| IdsSingle (coinId : string).

Inductive console_line : Type :=
| LogSkipping
| LogFetching
| LogCacheUpdated
| WarnRateLimit (delay : Z)
| ErrFetchAndCache (e : exn)
| ErrFetchCoin (coinId : string) (e : exn)
| ErrBackgroundAll (e : exn)
| LogBeforeSave (l : list item)
| LogAfterSave
| LogCacheUpdatedBackground.

(** Observable actions. [EvGet ids r] is one HTTP request to the feed:
    [r = Some retries] when [retryAxios] issued it with that many retries
    left, [None] for a bare [axios.get]. *)
Inductive event : Type :=
| EvGet (ids : ids_param) (retries : option nat)
| EvSleep (ms : Z)
| EvSave (l : list item)
| EvConsole (line : console_line).

Record world : Type := World {
  store : list item;
  portfolioCache : cache;
  lastApiCallTime : Z;
  clock : Z;
  upstream : nat -> axios_result;
  requests : nat;
  trace : list (Z * event) }.

Definition set_store (l : list item) (w : world) : world :=
  World l (portfolioCache w) (lastApiCallTime w) (clock w) (upstream w)
        (requests w) (trace w).

Definition set_portfolioCache (c : cache) (w : world) : world :=
  World (store w) c (lastApiCallTime w) (clock w) (upstream w)
        (requests w) (trace w).

Definition set_lastApiCallTime (t : Z) (w : world) : world :=
  World (store w) (portfolioCache w) t (clock w) (upstream w)
        (requests w) (trace w).

Definition set_clock (t : Z) (w : world) : world :=
  World (store w) (portfolioCache w) (lastApiCallTime w) t (upstream w)
        (requests w) (trace w).

Definition emit (e : event) (w : world) : world :=
  World (store w) (portfolioCache w) (lastApiCallTime w) (clock w)
        (upstream w) (requests w) (trace w ++ [(clock w, e)]).

Definition count_request (w : world) : world :=
  World (store w) (portfolioCache w) (lastApiCallTime w) (clock w)
        (upstream w) (S (requests w)) (trace w).

Inductive result (A : Type) : Type :=
| Ok (a : A)
| Throw (e : exn).
Arguments Ok {A} a.
Arguments Throw {A} e.

(** A computation: runs on a world, returns or throws, leaves a world. *)
Definition M (A : Type) : Type := world -> result A * world.

#[global] Instance M_ret : MRet M := fun A a w => (Ok a, w).

#[global] Instance M_bind : MBind M := fun A B f m w =>
  match m w with
  | (Ok a, w') => f a w'
  | (Throw e, w') => (Throw e, w')
  end.

Definition throw {A : Type} (e : exn) : M A := fun w => (Throw e, w).

(** [try { m } catch (error) { h error }]. *)
Definition try_catch {A : Type} (m : M A) (h : exn -> M A) : M A := fun w =>
  match m w with
  | (Ok a, w') => (Ok a, w')
  | (Throw e, w') => h e w'
  end.

Definition exec {A : Type} (m : M A) (w : world) : world := snd (m w).

Fixpoint forM {A B : Type} (l : list A) (f : A -> M B) : M (list B) :=
  match l with
  | [] => mret []
  | x :: xs => y ← f x; ys ← forM xs f; mret (y :: ys)
  end.

Definition Date_now : M Z := fun w => (Ok (clock w), w).

Definition sleep (ms : Z) : M unit := fun w =>
  (Ok tt, set_clock (clock w + ms) (emit (EvSleep ms) w)).

Definition console (line : console_line) : M unit := fun w =>
  (Ok tt, emit (EvConsole line) w).

Definition getPortfolio : M (list item) := fun w => (Ok (store w), w).

Definition savePortfolio (l : list item) : M unit := fun w =>
  (Ok tt, set_store l (emit (EvSave l) w)).

Definition axios_get (ids : ids_param) (retries : option nat)
  : M (list feed_coin) := fun w =>
  let w' := count_request (emit (EvGet ids retries) w) in
  match upstream w (requests w) with
  | Resolve data => (Ok data, w')
  | Reject status => (Throw (AxiosError status), w')
  end.

(** ** cacheManager.js *)

(** [error.response && error.response.status === 429] *)
Definition is_429 (error : exn) : bool :=
  match error with
  | AxiosError (Some status) => status =? 429
  | _ => false
  end.

(** [retryAxios(url, config, retries = 5, delay = 1000)], cacheManager.js
    lines 14-26. The url is the same at every call site; of the config
    only [ids] varies. *)
Fixpoint retryAxios (ids : ids_param) (retries : nat) (delay : Z)
  : M (list feed_coin) :=
  try_catch (axios_get ids (Some retries))
    (fun error =>
       match retries with
       | S retries' =>
           if is_429 error then
             console (WarnRateLimit delay);;
             sleep delay;;
             retryAxios ids retries' (delay * 2)
           else throw error
       | O => throw error
       end).

(** [liveCoinData]: the answer indexed by [coin.id], later elements
    overwriting earlier ones. *)
Definition index_by_id (data : list feed_coin) : gmap string feed_coin :=
  fold_left (fun m c => <[feed_id c := c]> m) data ∅.

(** The assignments made to a holding when a quote is written into it. *)
Definition with_quote (usdValue : jsval) (t : Z) (c : feed_coin) (it : item)
  : item :=
  {| coin := coin it;
     amount := amount it;
     name := Some (feed_name c);
     symbol := Some (feed_symbol c);
     lastPrice := Some {| usd := usdValue; timestamp := t |} |}.

Definition get_lastApiCallTime : M Z := fun w => (Ok (lastApiCallTime w), w).

Definition put_lastApiCallTime (t : Z) : M unit := fun w =>
  (Ok tt, set_lastApiCallTime t w).

Definition put_portfolioCache (c : cache) : M unit := fun w =>
  (Ok tt, set_portfolioCache c w).

(** [fetchAndCachePrices()], cacheManager.js lines 28-82: the function
    [initCacheManager] calls once and then puts on a timer. *)
Definition fetchAndCachePrices : M unit :=
  now ← Date_now;
  last ← get_lastApiCallTime;
  if now - last <? API_CALL_INTERVAL then
    console LogSkipping
  else
    console LogFetching;;
    put_lastApiCallTime now;;
    try_catch
      (portfolio ← getPortfolio;
       let coinIds := map coin portfolio in
       if (length coinIds =? 0)%nat then
         put_portfolioCache CacheObj;;
         savePortfolio []
       else
         data ← retryAxios (IdsJoined coinIds) 5 1000;
         let liveCoinData := index_by_id data in
         updatedPortfolio ← forM portfolio (fun item =>
           match liveCoinData !! coin item with
           | Some c =>
               if truthy (current_price c) then
                 t ← Date_now;
                 mret (with_quote (current_price c) t c item)
               else mret item
           | None => mret item
           end);
         savePortfolio updatedPortfolio;;
         put_portfolioCache (CacheArr updatedPortfolio);;
         console LogCacheUpdated)
      (fun error => console (ErrFetchAndCache error)).

Definition getCachedPortfolio : M cache := fun w => (Ok (portfolioCache w), w).

Definition updatePortfolioCache (newPortfolio : list item) : M unit :=
  put_portfolioCache (CacheArr newPortfolio).

(** [fetchCoinPrice(coinId)], cacheManager.js lines 98-129. *)
Definition fetchCoinPrice (coinId : string) : M unit :=
  try_catch
    (data ← retryAxios (IdsSingle coinId) 5 1000;
     match data with
     | c :: _ =>
         portfolio ← getPortfolio;
         updatedPortfolio ← forM portfolio (fun item =>
           if String.eqb (coin item) coinId then
             t ← Date_now;
             mret (with_quote (current_price c) t c item)
           else mret item);
         savePortfolio updatedPortfolio;;
         updatePortfolioCache updatedPortfolio
     | [] => mret tt
     end)
    (fun error => console (ErrFetchCoin coinId error)).

(** ** server.js *)

(** One line of the portfolio answer. *)
Record portfolio_line : Type := PortfolioLine {
  line_name : option string;
  line_symbol : text;
  line_amount : number;
  line_price : text;
  line_value : text;
  line_cached : bool;
  line_coin : string }.

Inductive response : Type :=
| PortfolioJson (portfolio : list portfolio_line) (totalValue : text)
| PriceJson (price : jsval) (value : text)
| AddedJson (coinId : string) (portfolio : list item)
| RemovedJson (coinId : string)
| InvalidCoinOrAmount
| PriceNotAvailableYet
| CoinNotFound (coinId : string)
| ServerError (e : exn).

Definition status (r : response) : Z :=
  match r with
  | PortfolioJson _ _ | PriceJson _ _ | AddedJson _ _ | RemovedJson _ => 200
  | InvalidCoinOrAmount => 400
  | PriceNotAvailableYet | CoinNotFound _ => 404
  | ServerError _ => 500
  end.

(** Using the cache as an array ([for ... of], [.find]): the initial
    object [{}] has neither an iterator nor a [find] method. *)
Definition as_array (c : cache) : M (list item) :=
  match c with
  | CacheArr l => mret l
  | CacheObj => throw TypeError
  end.

(** [GET /api/coin/:coinId/price], server.js lines 40-53. *)
Definition GET_coin_price (coinId : string) : M response :=
  try_catch
    (portfolio ← getCachedPortfolio;
     items ← as_array portfolio;
     match List.find (fun item => String.eqb (coin item) coinId) items with
     | Some c =>
         match lastPrice c with
         | Some p =>
             if not_NA (usd p) then
               mret (PriceJson (usd p)
                       (ToFixed (num_mul (amount c) (to_number (usd p))) 2))
             else mret PriceNotAvailableYet
         | None => mret PriceNotAvailableYet
         end
     | None => mret PriceNotAvailableYet
     end)
    (fun error => mret (ServerError error)).

(** [a || b] on an optional string. *)
Definition or_else (a : option string) (b : string) : string :=
  match a with
  | Some s => if String.eqb s "" then b else s
  | None => b
  end.

(** The body of the loop of [GET /api/portfolio] for one holding: the
    line pushed and the new [totalValue]. Every branch of the price
    formatting calls [cachedPrice.toFixed], which only a number has. *)
Definition portfolio_row (item : item) (totalValue : number)
  : M (portfolio_line * number) :=
  let cachedPrice :=
    match lastPrice item with
    | Some p => usd p
    | None => VUndef
    end in
  if truthy cachedPrice then
    match cachedPrice with
    | VNum n =>
        let displayPrice :=
          if num_ge n (Num 1) then ToFixed n 2
          else if num_ge n (Num (1 # 10000)) then ToFixed n 4
          else ToFixed n 8 in
        let v := num_mul (amount item) n in
        match symbol item with
        | Some s =>
            mret ({| line_name := name item;
                     line_symbol := ToUpperCase s;
                     line_amount := amount item;
                     line_price := displayPrice;
                     line_value := ToFixed v 2;
                     line_cached := true;
                     line_coin := coin item |},
                  num_add totalValue (round_fixed v 2))
        | None => throw TypeError
        end
    | _ => throw TypeError
    end
  else
    mret ({| line_name := Some (or_else (name item) (coin item));
             line_symbol := Lit (or_else (symbol item) "N/A");
             line_amount := amount item;
             line_price := Lit "N/A";
             line_value := Lit "N/A";
             line_cached := false;
             line_coin := coin item |},
          totalValue).

Fixpoint portfolio_rows (items : list item) (portfolioWithPrices : list portfolio_line)
  (totalValue : number) : M (list portfolio_line * number) :=
  match items with
  | [] => mret (portfolioWithPrices, totalValue)
  | item :: rest =>
      '(row, totalValue') ← portfolio_row item totalValue;
      portfolio_rows rest (portfolioWithPrices ++ [row]) totalValue'
  end.

(** The test that guards the write of a quote in the background pass:
    [coinData.current_price && typeof coinData.current_price.usd ===
    'number' && !isNaN(coinData.current_price.usd)]. *)
Definition has_usd_quote (coinData : feed_coin) : bool :=
  truthy (current_price coinData)
  && is_number (get_prop (current_price coinData) "usd")
  && negb (isNaN (get_prop (current_price coinData) "usd")).

(** The body of the loop of the background task for one holding. *)
Definition background_item (backgroundLiveCoinData : gmap string feed_coin)
  : item -> M item := fun item =>
  now ← Date_now;
  let needsUpdate :=
    match lastPrice item with
    | Some p => negb (truthy (usd p)) || (300000 <=? now - timestamp p)
    | None => true
    end in
  if needsUpdate then
    sleep 3000;;
    match backgroundLiveCoinData !! coin item with
    | Some coinData =>
        if has_usd_quote coinData then
          let currentPrice := get_prop (current_price coinData) "usd" in
          t ← Date_now;
          mret (with_quote currentPrice t coinData item)
        else mret item
    | None => mret item
    end
  else mret item.

(** The one request of the background task, for all coins, and the
    [backgroundLiveCoinData] it fills; a failure leaves it empty. *)
Definition background_live_data (latestPortfolio : list item)
  : M (gmap string feed_coin) :=
  try_catch
    (let backgroundCoinIds := map coin latestPortfolio in
     if (0 <? length backgroundCoinIds)%nat then
       data ← axios_get (IdsJoined backgroundCoinIds) None;
       mret (index_by_id data)
     else mret ∅)
    (fun error => console (ErrBackgroundAll error);; mret ∅).

(** The task started after the portfolio answer has been sent, server.js
    lines 103-156. Nothing in the guarded part of its loop can throw. *)
Definition background_update : M unit :=
  latestPortfolio ← getPortfolio;
  backgroundLiveCoinData ← background_live_data latestPortfolio;
  updatedPortfolio ← forM latestPortfolio
                       (background_item backgroundLiveCoinData);
  console (LogBeforeSave updatedPortfolio);;
  savePortfolio updatedPortfolio;;
  console LogAfterSave;;
  console LogCacheUpdatedBackground.

(** [GET /api/portfolio], server.js lines 61-161. The answer is fixed
    before the background task starts. *)
Definition GET_portfolio : M response :=
  try_catch
    (portfolio ← getCachedPortfolio;
     items ← as_array portfolio;
     '(portfolioWithPrices, totalValue) ← portfolio_rows items [] (Num 0);
     background_update;;
     mret (PortfolioJson portfolioWithPrices (ToFixed totalValue 2)))
    (fun error => mret (ServerError error)).

(** [existingCoin.amount += delta] on the first holding of that coin. *)
Fixpoint bump_first (coinId : string) (delta : number) (l : list item)
  : list item :=
  match l with
  | [] => []
  | it :: rest =>
      if String.eqb (coin it) coinId then
        {| coin := coin it;
           amount := num_add (amount it) delta;
           name := name it;
           symbol := symbol it;
           lastPrice := lastPrice it |} :: rest
      else it :: bump_first coinId delta rest
  end.

Definition new_holding (coinId : string) (amount : jsval) : item :=
  {| coin := coinId;
     amount := parseFloat amount;
     name := Some coinId;
     symbol := Some "?";
     lastPrice := Some {| usd := VNA; timestamp := 0 |} |}.

(** [!coinId] on the body field: absent or the empty string. *)
Definition no_coinId (coinId : option string) : bool :=
  match coinId with
  | Some s => String.eqb s ""
  | None => true
  end.

(** [POST /api/portfolio/add], server.js lines 163-189. The price fetch
    it starts is not awaited; it is run here after the list in the answer
    has been fixed. *)
Definition POST_portfolio_add (coinId : option string) (amount : jsval)
  : M response :=
  if no_coinId coinId || isNaN amount || num_le (to_number amount) (Num 0)
  then mret InvalidCoinOrAmount
  else
    let coinId := default "" coinId in
    try_catch
      (portfolio ← getPortfolio;
       let portfolio :=
         match List.find (fun item => String.eqb (coin item) coinId) portfolio
         with
         | Some _ => bump_first coinId (parseFloat amount) portfolio
         | None => (portfolio ++ [new_holding coinId amount])
         end in
       savePortfolio portfolio;;
       updatePortfolioCache portfolio;;
       fetchCoinPrice coinId;;
       mret (AddedJson coinId portfolio))
      (fun error => mret (ServerError error)).

(** [DELETE /api/portfolio/remove/:coinId], server.js lines 192-209. *)
Definition DELETE_portfolio_remove (coinIdToRemove : string) : M response :=
  try_catch
    (portfolio ← getPortfolio;
     let initialLength := length portfolio in
     let portfolio :=
       List.filter (fun item => negb (String.eqb (coin item) coinIdToRemove))
         portfolio in
     if (length portfolio <? initialLength)%nat then
       savePortfolio portfolio;;
       updatePortfolioCache portfolio;;
       mret (RemovedJson coinIdToRemove)
     else mret (CoinNotFound coinIdToRemove))
    (fun error => mret (ServerError error)).

(** ** Refresh triggers *)

(** What starts a refresh: the timer (and the first call at start-up),
    the fetch after an add, the task after a portfolio read. *)
Inductive trigger : Type :=
| Tick
| OnDemand (coinId : string)
| Reconcile.

Definition fire (tr : trigger) : M unit :=
  match tr with
  | Tick => fetchAndCachePrices
  | OnDemand coinId => fetchCoinPrice coinId
  | Reconcile => background_update
  end.

(** Triggers arriving at the given times, each run on the world the
    previous one left. *)
Fixpoint run (ts : list (Z * trigger)) (w : world) : world :=
  match ts with
  | [] => w
  | (t, tr) :: rest => run rest (exec (fire tr) (set_clock t w))
  end.

(** ** Vocabulary of the properties *)

Definition is_get (e : Z * event) : bool :=
  match snd e with
  | EvGet _ _ => true
  | _ => false
  end.

(** Number of HTTP requests in a trace, and the pauses taken, in order. *)
Definition attempts (tr : list (Z * event)) : nat :=
  length (List.filter is_get tr).

Definition pauses (tr : list (Z * event)) : list Z :=
  flat_map (fun e => match snd e with EvSleep ms => [ms] | _ => [] end) tr.

(** What [retryAxios] leaves in the trace when every answer is a 429,
    and how long it runs. *)
Fixpoint backoff (ids : ids_param) (retries : nat) (delay : Z) (t : Z)
  : list (Z * event) :=
  (t, EvGet ids (Some retries)) ::
  match retries with
  | O => []
  | S retries' =>
      (t, EvConsole (WarnRateLimit delay)) :: (t, EvSleep delay)
      :: backoff ids retries' (delay * 2) (t + delay)
  end.

Fixpoint backoff_time (retries : nat) (delay : Z) : Z :=
  match retries with
  | O => 0
  | S retries' => delay + backoff_time retries' (delay * 2)
  end.

(** Every request from now on is answered with HTTP 429. *)
Definition rate_limited (w : world) : Prop :=
  forall k, (requests w <= k)%nat -> upstream w k = Reject (Some 429).

(** The holding [List.find] returns for a coin id. *)
Definition first_holding (coinId : string) (items : list item) : option item :=
  List.find (fun item => String.eqb (coin item) coinId) items.

Definition coins (l : list item) : list string := map coin l.

(** A request that starts a call: a bare [axios.get], or the first attempt
    of [retryAxios], which every call site enters with 5 retries. *)
Definition starts_call (retries : option nat) : bool :=
  match retries with
  | None => true
  | Some r => (r =? 5)%nat
  end.

(** Start times of the calls for the whole portfolio. *)
Definition batch_call_times (tr : list (Z * event)) : list Z :=
  flat_map (fun e =>
    match snd e with
    | EvGet (IdsJoined _) r => if starts_call r then [fst e] else []
    | _ => []
    end) tr.

(** Start times of the calls for the whole portfolio made through
    [retryAxios], that is by [fetchAndCachePrices]. *)
Definition refresh_call_times (tr : list (Z * event)) : list Z :=
  flat_map (fun e =>
    match snd e with
    | EvGet (IdsJoined _) (Some r) => if (r =? 5)%nat then [fst e] else []
    | _ => []
    end) tr.

(** What [retryAxios] may add to the trace after its first request:
    pauses, warnings, and requests with fewer retries left. *)
Definition later_attempt (retries : nat) (e : Z * event) : Prop :=
  match snd e with
  | EvGet _ (Some r) => (r < retries)%nat
  | EvGet _ None => False
  | EvSave _ => False
  | _ => True
  end.

(** Each start is at least [API_CALL_INTERVAL] after all earlier ones. *)
Definition paced (l : list Z) : Prop :=
  StronglySorted (fun a b => a + API_CALL_INTERVAL <= b) l.

(** What the gate of [fetchAndCachePrices] maintains: its calls so far are
    paced and none is later than [lastApiCallTime]. *)
Definition gate_inv (w : world) : Prop :=
  paced (refresh_call_times (trace w)) /\
  Forall (fun t => t <= lastApiCallTime w) (refresh_call_times (trace w)).

(** The coin ids of the stored list are pairwise distinct. *)
Definition distinct (w : world) : Prop := List.NoDup (coins (store w)).

(** The list [POST /api/portfolio/add] saves. *)
Definition added (coinId : string) (amount : jsval) (portfolio : list item)
  : list item :=
  match first_holding coinId portfolio with
  | Some _ => bump_first coinId (parseFloat amount) portfolio
  | None => portfolio ++ [new_holding coinId amount]
  end.

(** The list [DELETE /api/portfolio/remove/:coinId] keeps. *)
Definition without (coinId : string) (portfolio : list item) : list item :=
  List.filter (fun item => negb (String.eqb (coin item) coinId)) portfolio.

(** No two elements of [l] are less than [d] apart. *)
Definition apart (d : Z) (l : list Z) : Prop :=
  forall (i j : nat) (a b : Z),
    i <> j -> l !! i = Some a -> l !! j = Some b -> d <= Z.abs (b - a).

(** A cache entry for [coinId] observed less than [CACHE_DURATION] ago. *)
Definition fresh_entry (now : Z) (coinId : string) (items : list item) : Prop :=
  exists c p, In c items /\ coin c = coinId /\ lastPrice c = Some p /\
    now - timestamp p < CACHE_DURATION.

(** The holding after [fetchCoinPrice] has gone over it. *)
Definition quoted (coinId : string) (c : feed_coin) (t : Z) (it : item) : item :=
  if String.eqb (coin it) coinId
  then with_quote (current_price c) t c it else it.

(** The holding after the loop of [fetchAndCachePrices] has gone over it. *)
Definition refreshed (liveCoinData : gmap string feed_coin) (t : Z) (it : item)
  : item :=
  match liveCoinData !! coin it with
  | Some c =>
      if truthy (current_price c)
      then with_quote (current_price c) t c it else it
  | None => it
  end.

(** Sample worlds for the concrete statements. *)
Definition always_429 : nat -> axios_result := fun _ => Reject (Some 429).

Definition bitcoin_quote : nat -> axios_result := fun _ =>
  Resolve [FeedCoin "bitcoin" (VNum (Num 50000)) "Bitcoin" "btc"].

Definition world0 (l : list item) (c : cache) (up : nat -> axios_result)
  : world :=
  {| store := l; portfolioCache := c; lastApiCallTime := 0;
     clock := 1000000; upstream := up; requests := 0; trace := [] |}.

Definition bitcoin_priced (t : Z) : item :=
  {| coin := "bitcoin"; amount := Num 2; name := Some "Bitcoin";
     symbol := Some "btc";
     lastPrice := Some {| usd := VNum (Num 50000); timestamp := t |} |}.

Definition bitcoin_unpriced : item :=
  {| coin := "bitcoin"; amount := Num 2; name := None; symbol := None;
     lastPrice := None |}.

Definition ether_priced (t : Z) : item :=
  {| coin := "ethereum"; amount := Num 10; name := Some "Ethereum";
     symbol := Some "eth";
     lastPrice := Some {| usd := VNum (Num 3000); timestamp := t |} |}.

(** The world after a first holding was added while the feed was rate
    limiting, a world whose only holding has no price yet, and a world
    whose cache holds a price observed at time 0. *)
Definition world_after_add : world :=
  exec (POST_portfolio_add (Some "bitcoin") (VNum (Num 2)))
    (world0 [] CacheObj always_429).


Definition world_stale : world :=
  world0 [] (CacheArr [bitcoin_priced 0]) bitcoin_quote.

(** ** Vocabulary of the further properties *)

Definition total (l : list Z) : Z := fold_right Z.add 0 l.

(** [k] pauses, each twice the one before. *)
Fixpoint doubling (delay : Z) (k : nat) : list Z :=
  match k with
  | O => []
  | S k' => delay :: doubling (delay * 2) k'
  end.

(** The first [k] requests from now on are answered with HTTP 429. *)
Definition rate_limited_for (k : nat) (w : world) : Prop :=
  forall j, (j < k)%nat -> upstream w (requests w + j) = Reject (Some 429).

(** The feed fails a call for good: it rate limits every request, or its
    first answer is an error other than a 429. *)
Definition refresh_fails (w : world) : Prop :=
  rate_limited w \/
  exists st, upstream w (requests w) = Reject st /\ st <> Some 429.

(** Number of refreshes skipped and of refreshes started, by their log
    lines. *)
Definition skipped (tr : list (Z * event)) : nat :=
  length (List.filter (fun e => match snd e with
                                | EvConsole LogSkipping => true
                                | _ => false
                                end) tr).

Definition started (tr : list (Z * event)) : nat :=
  length (List.filter (fun e => match snd e with
                                | EvConsole LogFetching => true
                                | _ => false
                                end) tr).

(** [initCacheManager()], cacheManager.js lines 85-88: a first call of
    [fetchAndCachePrices] and a timer that calls it again; [times] are the
    instants of these calls. *)
Definition initCacheManager (times : list Z) : list (Z * trigger) :=
  map (fun t => (t, Tick)) times.

(** The instants are in order, each at least [API_CALL_INTERVAL] after
    the one before, the first that long after [last]. *)
Fixpoint on_schedule (last : Z) (times : list Z) : Prop :=
  match times with
  | [] => True
  | t :: rest => last + API_CALL_INTERVAL <= t /\ on_schedule t rest
  end.

(** A holding has a price to show: its [lastPrice.usd] is truthy. *)
Definition priced (it : item) : bool :=
  match lastPrice it with
  | Some p => truthy (usd p)
  | None => false
  end.

(** The holdings the portfolio read can turn into a line: those without a
    price to show, and those whose price is a number and that have a
    symbol. *)
Definition renderable (it : item) : bool :=
  match lastPrice it with
  | Some p =>
      if truthy (usd p) then
        is_number (usd p)
        && match symbol it with Some _ => true | None => false end
      else true
  | None => true
  end.

(** What a line of the portfolio answer says about its holding. *)
Definition row_matches (it : item) (row : portfolio_line) : Prop :=
  line_coin row = coin it /\
  line_amount row = amount it /\
  line_cached row = priced it /\
  (priced it = false ->
   line_price row = Lit "N/A" /\ line_value row = Lit "N/A") /\
  (forall p n,
     priced it = true -> lastPrice it = Some p -> usd p = VNum n ->
     line_value row = ToFixed (num_mul (amount it) n) 2 /\
     line_name row = name it).

(** What a holding is for the owner: the coin and the amount held. *)
Definition holding (it : item) : string * number := (coin it, amount it).

(** A holding the background pass leaves alone at time [now]: its price is
    truthy and younger than five minutes. *)
Definition fresh_at (now : Z) (it : item) : bool :=
  match lastPrice it with
  | Some p => truthy (usd p) && (now - timestamp p <? 300000)
  | None => false
  end.

(** Crediting [d] to the first holding of coin [c], or opening a holding
    of [d] at the end when there is none. *)
Fixpoint credit (c : string) (d : number) (hs : list (string * number))
  : list (string * number) :=
  match hs with
  | [] => [(c, d)]
  | (k, n) :: rest =>
      if String.eqb k c then (k, num_add n d) :: rest
      else (k, n) :: credit c d rest
  end.


(** ** Proof steps shared by the lemmas *)

(** Unfolds the monad and the primitive effects. *)
Ltac unfold_m :=
  unfold mbind, M_bind, mret, M_ret, try_catch, throw, console, sleep,
    getPortfolio, savePortfolio, Date_now, getCachedPortfolio,
    updatePortfolioCache, put_portfolioCache, put_lastApiCallTime,
    get_lastApiCallTime, exec in *.

(** Reads the fields of an updated world. *)
Ltac fields :=
  cbn [store portfolioCache lastApiCallTime clock upstream requests trace
       set_store set_portfolioCache set_lastApiCallTime set_clock emit
       count_request fst snd] in *.

(** ** Sample runs *)

Example add_twice_merges :
  map (fun it => (coin it, amount it))
    (store (exec (POST_portfolio_add (Some "x") (VNum (Num 3)))
              (exec (POST_portfolio_add (Some "x") (VNum (Num 2)))
                 (world0 [] CacheObj always_429)))) = [("x", Num 5)].
Proof. vm_compute. reflexivity. Qed.

Example add_first_holding :
  store (exec (POST_portfolio_add (Some "x") (VNum (Num 2)))
           (world0 [] CacheObj always_429)) =
    [{| coin := "x"; amount := Num 2; name := Some "x"; symbol := Some "?";
        lastPrice := Some {| usd := VNA; timestamp := 0 |} |}].
Proof. vm_compute. reflexivity. Qed.

Example add_rejects_zero_and_missing :
  fst (POST_portfolio_add (Some "x") (VNum (Num 0))
         (world0 [] CacheObj always_429)) = Ok InvalidCoinOrAmount /\
  fst (POST_portfolio_add (Some "x") VUndef
         (world0 [] CacheObj always_429)) = Ok InvalidCoinOrAmount /\
  fst (POST_portfolio_add None (VNum (Num 1))
         (world0 [] CacheObj always_429)) = Ok InvalidCoinOrAmount.
Proof. repeat split. Qed.

Example read_after_refresh :
  fst (GET_portfolio
         (exec fetchAndCachePrices
            (world0 [bitcoin_unpriced] CacheObj bitcoin_quote))) =
    Ok (PortfolioJson
          [{| line_name := Some "Bitcoin"; line_symbol := ToUpperCase "btc";
              line_amount := Num 2; line_price := ToFixed (Num 50000) 2;
              line_value := ToFixed (Num (2 * 50000)) 2; line_cached := true;
              line_coin := "bitcoin" |}]
          (ToFixed (Num 100000) 2)).
Proof. vm_compute. reflexivity. Qed.

Example read_unpriced_holding :
  fst (GET_portfolio (world0 [] (CacheArr [bitcoin_unpriced]) always_429)) =
    Ok (PortfolioJson
          [{| line_name := Some "bitcoin"; line_symbol := Lit "N/A";
              line_amount := Num 2; line_price := Lit "N/A";
              line_value := Lit "N/A"; line_cached := false;
              line_coin := "bitcoin" |}]
          (ToFixed (Num 0) 2)).
Proof. vm_compute. reflexivity. Qed.

Example retry_then_answer :
  attempts (trace (exec (retryAxios (IdsSingle "bitcoin") 5 1000)
                     (world0 [] CacheObj
                        (fun k => match k with
                                  | O => Reject (Some 429)
                                  | _ => bitcoin_quote k
                                  end)))) = 2%nat.
Proof. reflexivity. Qed.

(** ** Retry with back-off *)

Lemma retryAxios_all_429 ids retries : forall delay w,
  rate_limited w ->
  retryAxios ids retries delay w =
    (Throw (AxiosError (Some 429)),
     {| store := store w; portfolioCache := portfolioCache w;
        lastApiCallTime := lastApiCallTime w;
        clock := clock w + backoff_time retries delay;
        upstream := upstream w;
        requests := (requests w + S retries)%nat;
        trace := trace w ++ backoff ids retries delay (clock w) |}).
Proof.
  induction retries as [|r IH]; intros delay w Hup.
  - cbn. unfold try_catch, axios_get. rewrite (Hup (requests w)) by lia.
    cbn. unfold count_request, emit; cbn. repeat f_equal; lia.
  - cbn [retryAxios]. unfold try_catch at 1. unfold axios_get.
    rewrite (Hup (requests w)) by lia. cbn [is_429].
    unfold mbind, M_bind, console, sleep.
    cbn -[retryAxios backoff backoff_time Z.mul].
    rewrite IH.
    + cbn -[Z.mul]. rewrite <- !app_assoc. cbn [app].
      f_equal. f_equal; lia.
    + intros k Hk. cbn in *. apply Hup. lia.
Qed.

Lemma retryAxios_other_error ids retries delay w st :
  upstream w (requests w) = Reject st -> st <> Some 429 ->
  retryAxios ids retries delay w =
    (Throw (AxiosError st), count_request (emit (EvGet ids (Some retries)) w)).
Proof.
  intros Hup Hst.
  assert (Hno : is_429 (AxiosError st) = false).
  { destruct st as [z|]; [|reflexivity]. cbn.
    apply Z.eqb_neq. congruence. }
  destruct retries; cbn [retryAxios]; unfold try_catch, axios_get;
    rewrite Hup; [reflexivity|]. rewrite Hno. reflexivity.
Qed.

(** C3, as stated, fails: against a feed that always answers 429 the call
    makes six requests, not at most five. *)
Lemma retry_makes_six_attempts :
  ~ (attempts (trace (exec (retryAxios (IdsJoined ["bitcoin"]) 5 1000)
                        (world0 [] CacheObj always_429))) <= 5)%nat.
Proof. vm_compute. lia. Qed.

(** C3 (amended): against a feed that answers 429 to every request,
    [retryAxios] makes six requests in all, the first and five retries,
    pausing 1, 2, 4, 8 and 16 seconds between successive requests, and then
    throws the 429 error; an error that is not a 429 is thrown after the
    request that met it, with no pause and no further request. *)
Theorem retryAxios_backoff (ids : ids_param) (w : world) :
  (rate_limited w ->
   exists w',
     retryAxios ids 5 1000 w = (Throw (AxiosError (Some 429)), w') /\
     map snd (drop (length (trace w)) (trace w')) =
       [EvGet ids (Some 5%nat); EvConsole (WarnRateLimit 1000); EvSleep 1000;
        EvGet ids (Some 4%nat); EvConsole (WarnRateLimit 2000); EvSleep 2000;
        EvGet ids (Some 3%nat); EvConsole (WarnRateLimit 4000); EvSleep 4000;
        EvGet ids (Some 2%nat); EvConsole (WarnRateLimit 8000); EvSleep 8000;
        EvGet ids (Some 1%nat); EvConsole (WarnRateLimit 16000); EvSleep 16000;
        EvGet ids (Some 0%nat)] /\
     attempts (drop (length (trace w)) (trace w')) = 6%nat /\
     pauses (drop (length (trace w)) (trace w')) =
       [1000; 2000; 4000; 8000; 16000]) /\
  (forall retries delay st,
     upstream w (requests w) = Reject st -> st <> Some 429 ->
     retryAxios ids retries delay w =
       (Throw (AxiosError st),
        count_request (emit (EvGet ids (Some retries)) w))).
Proof.
  split.
  - intros Hup. eexists. split; [apply retryAxios_all_429, Hup|].
    cbn [trace]. rewrite drop_app_length. repeat split; reflexivity.
  - intros retries delay st. apply retryAxios_other_error.
Qed.

Lemma retryAxios_backoff_witness :
  rate_limited (world0 [] CacheObj always_429) /\
  attempts (trace (exec (retryAxios (IdsSingle "bitcoin") 5 1000)
                     (world0 [] CacheObj always_429))) = 6%nat /\
  fst (retryAxios (IdsSingle "bitcoin") 3 4000
         (world0 [] CacheObj (fun _ => Reject (Some 500)))) =
    Throw (AxiosError (Some 500)).
Proof.
  assert (H : rate_limited (world0 [] CacheObj always_429))
    by (intros k _; reflexivity).
  split; [exact H|]. split.
  - destruct (retryAxios_backoff (IdsSingle "bitcoin")
                (world0 [] CacheObj always_429)) as [H1 _].
    destruct (H1 H) as (w' & Hrun & _ & Hn & _).
    unfold exec. rewrite Hrun. exact Hn.
  - destruct (retryAxios_backoff (IdsSingle "bitcoin")
                (world0 [] CacheObj (fun _ => Reject (Some 500)))) as [_ H2].
    rewrite (H2 3%nat 4000 (Some 500)); [reflexivity|reflexivity|discriminate].
Defined.

(** ** How each operation runs *)

Lemma refresh_call_times_app tr1 tr2 :
  refresh_call_times (tr1 ++ tr2) =
    refresh_call_times tr1 ++ refresh_call_times tr2.
Proof. apply flat_map_app. Qed.

Lemma forM_pure {A B : Type} (f : A -> M B) (g : world -> A -> B) l w :
  (forall x w, f x w = (Ok (g w x), w)) ->
  forM l f w = (Ok (map (g w) l), w).
Proof.
  intros Hf. induction l as [|x xs IH]; [reflexivity|].
  cbn [forM map]. unfold mbind, M_bind. rewrite Hf, IH. reflexivity.
Qed.

Lemma retryAxios_frame ids retries : forall delay w,
  exists res w' evs,
    retryAxios ids retries delay w = (res, w') /\
    store w' = store w /\ portfolioCache w' = portfolioCache w /\
    lastApiCallTime w' = lastApiCallTime w /\ upstream w' = upstream w /\
    trace w' = trace w ++ (clock w, EvGet ids (Some retries)) :: evs /\
    Forall (later_attempt retries) evs.
Proof.
  induction retries as [|r IH]; intros delay w.
  - cbn [retryAxios]. unfold try_catch, axios_get, throw.
    destruct (upstream w (requests w)); do 3 eexists;
      (split; [reflexivity|]); cbn; repeat split; constructor.
  - cbn [retryAxios]. unfold try_catch at 1. unfold axios_get.
    destruct (upstream w (requests w)) as [data|st].
    + do 3 eexists. split; [reflexivity|]. cbn. repeat split. constructor.
    + destruct (is_429 (AxiosError st)).
      * unfold mbind, M_bind, console, sleep.
        cbn -[retryAxios Z.mul].
        match goal with |- context [retryAxios ids r ?d ?w1] =>
          destruct (IH d w1)
            as (res & w' & evs & Hrun & Hs & Hc & Hl & Hu & Ht & Hev)
        end.
        rewrite Hrun. exists res, w'. eexists. split; [reflexivity|].
        cbn in Hs, Hc, Hl, Hu, Ht. repeat split; try assumption.
        { rewrite Ht. rewrite <- !app_assoc. cbn [app]. reflexivity. }
        repeat constructor.
        eapply Forall_impl; [exact Hev|].
        intros [t e]. unfold later_attempt. cbn.
        destruct e as [? [r'|]| | |]; auto; lia.
      * unfold throw. do 3 eexists. split; [reflexivity|]. cbn.
        repeat split. constructor.
Qed.

Lemma fetchCoinPrice_run coinId w :
  fetchCoinPrice coinId w =
    (Ok tt,
     match retryAxios (IdsSingle coinId) 5 1000 w with
     | (Ok (c :: _), w1) =>
         let l := map (quoted coinId c (clock w1)) (store w1) in
         set_portfolioCache (CacheArr l) (set_store l (emit (EvSave l) w1))
     | (Ok [], w1) => w1
     | (Throw e, w1) => emit (EvConsole (ErrFetchCoin coinId e)) w1
     end).
Proof.
  unfold fetchCoinPrice, try_catch. unfold mbind at 1. unfold M_bind at 1.
  destruct (retryAxios (IdsSingle coinId) 5 1000 w) as [[[|c data]|e] w1];
    try reflexivity.
  unfold_m.
  rewrite (forM_pure _ (fun w => quoted coinId c (clock w))).
  - reflexivity.
  - intros x w'. unfold quoted.
    destruct (String.eqb (coin x) coinId); reflexivity.
Qed.

Lemma fetchAndCachePrices_run w :
  fetchAndCachePrices w =
    (Ok tt,
     if clock w - lastApiCallTime w <? API_CALL_INTERVAL then
       emit (EvConsole LogSkipping) w
     else
       let w1 :=
         set_lastApiCallTime (clock w) (emit (EvConsole LogFetching) w) in
       if (length (coins (store w)) =? 0)%nat then
         set_store [] (emit (EvSave []) (set_portfolioCache CacheObj w1))
       else
         match retryAxios (IdsJoined (coins (store w))) 5 1000 w1 with
         | (Ok data, w2) =>
             let l :=
               map (refreshed (index_by_id data) (clock w2)) (store w) in
             emit (EvConsole LogCacheUpdated)
               (set_portfolioCache (CacheArr l)
                  (set_store l (emit (EvSave l) w2)))
         | (Throw e, w2) => emit (EvConsole (ErrFetchAndCache e)) w2
         end).
Proof.
  unfold fetchAndCachePrices, coins. unfold_m.
  cbn -[retryAxios API_CALL_INTERVAL].
  destruct (clock w - lastApiCallTime w <? API_CALL_INTERVAL); [reflexivity|].
  destruct (length (map coin (store w)) =? 0)%nat; [reflexivity|].
  match goal with |- context [retryAxios ?i 5 1000 ?w1] =>
    destruct (retryAxios i 5 1000 w1) as [[data|e] w2] end; [|reflexivity].
  rewrite (forM_pure _ (fun w => refreshed (index_by_id data) (clock w))).
  - reflexivity.
  - intros x w'. unfold refreshed.
    destruct (index_by_id data !! coin x) as [c|]; [|reflexivity].
    destruct (truthy (current_price c)); reflexivity.
Qed.

(** The loop of the background task only reads the clock and sleeps. *)
Lemma background_loop live : forall l w,
  exists l' w',
    forM l (background_item live) w = (Ok l', w') /\
    coins l' = coins l /\
    store w' = store w /\ portfolioCache w' = portfolioCache w /\
    lastApiCallTime w' = lastApiCallTime w /\
    refresh_call_times (trace w') = refresh_call_times (trace w).
Proof.
  induction l as [|x xs IH]; intros w.
  - exists [], w. repeat split.
  - cbn [forM]. unfold mbind at 1. unfold M_bind at 1.
    assert (Hx : exists x' w1, background_item live x w = (Ok x', w1) /\
              coin x' = coin x /\ store w1 = store w /\
              portfolioCache w1 = portfolioCache w /\
              lastApiCallTime w1 = lastApiCallTime w /\
              refresh_call_times (trace w1) = refresh_call_times (trace w)).
    { unfold background_item. unfold_m.
      match goal with |- context [if ?b then _ else _] => destruct b end.
      - assert (Ht : forall w0 : world,
          refresh_call_times (trace (set_clock (clock w0 + 3000)
             (emit (EvSleep 3000) w0))) = refresh_call_times (trace w0)).
        { intros w0. cbn. unfold refresh_call_times.
          rewrite flat_map_app. cbn. apply app_nil_r. }
        destruct (live !! coin x) as [c|].
        + destruct (has_usd_quote c); do 2 eexists;
            (split; [reflexivity|]); repeat split; apply Ht.
        + do 2 eexists. split; [reflexivity|]. repeat split. apply Ht.
      - do 2 eexists. split; [reflexivity|]. repeat split. }
    destruct Hx as (x' & w1 & Hrun & Hcx & Hs & Hc & Hl & Ht).
    rewrite Hrun.
    destruct (IH w1) as (l' & w' & Hrun' & Hcl & Hs' & Hc' & Hl' & Ht').
    unfold mbind, M_bind, mret, M_ret. rewrite Hrun'.
    exists (x' :: l'), w'. split; [reflexivity|].
    repeat split; try congruence. cbn. unfold coins in Hcl. congruence.
Qed.

Lemma background_update_run w :
  exists w',
    background_update w = (Ok tt, w') /\
    coins (store w') = coins (store w) /\
    portfolioCache w' = portfolioCache w /\
    lastApiCallTime w' = lastApiCallTime w /\
    refresh_call_times (trace w') = refresh_call_times (trace w).
Proof.
  unfold background_update.
  unfold mbind at 1. unfold M_bind at 1. unfold getPortfolio at 1.
  unfold mbind at 1. unfold M_bind at 1.
  assert (Hget : exists live w1,
    background_live_data (store w) w = (Ok live, w1) /\
    store w1 = store w /\ portfolioCache w1 = portfolioCache w /\
    lastApiCallTime w1 = lastApiCallTime w /\
    refresh_call_times (trace w1) = refresh_call_times (trace w)).
  { unfold background_live_data, try_catch. cbn zeta.
    destruct (0 <? length (map coin (store w)))%nat.
    - unfold mbind, M_bind, axios_get, mret, M_ret, console.
      destruct (upstream w (requests w)); do 2 eexists;
        (split; [reflexivity|]); repeat split;
        cbn; unfold refresh_call_times; rewrite ?flat_map_app; cbn;
        rewrite ?app_nil_r; reflexivity.
    - do 2 eexists. split; [reflexivity|]. repeat split. }
  destruct Hget as (live & w1 & Hrun & Hs & Hc & Hl & Ht). rewrite Hrun.
  unfold mbind at 1. unfold M_bind at 1.
  destruct (background_loop live (store w) w1)
    as (l' & w2 & Hrun2 & Hcl & Hs2 & Hc2 & Hl2 & Ht2).
  rewrite Hrun2. unfold_m. eexists. split; [reflexivity|].
  fields. repeat split; try congruence.
  rewrite !refresh_call_times_app. cbn [refresh_call_times flat_map snd].
  rewrite !app_nil_r. congruence.
Qed.

(** ** The interval between refresh calls *)

Lemma later_attempts_not_refresh evs :
  Forall (later_attempt 5) evs -> refresh_call_times evs = [].
Proof.
  induction 1 as [|[t e] evs He _ IH]; [reflexivity|].
  change ((t, e) :: evs) with ([(t, e)] ++ evs).
  rewrite refresh_call_times_app, IH, app_nil_r.
  unfold later_attempt in He. cbn in *.
  destruct e as [[ids|id] [r|]| | |]; try reflexivity.
  destruct (Nat.eqb_spec r 5); [lia|reflexivity].
Qed.

Lemma paced_snoc l x :
  paced l -> Forall (fun a => a + API_CALL_INTERVAL <= x) l -> paced (l ++ [x]).
Proof.
  unfold paced. induction 1 as [|a l Hl IH Ha]; intros Hx; cbn.
  - repeat constructor.
  - inversion Hx; subst. constructor; [auto|].
    apply Forall_app. split; [assumption|]. repeat constructor. assumption.
Qed.

Lemma paced_apart l : paced l -> apart API_CALL_INTERVAL l.
Proof.
  unfold paced, apart. induction 1 as [|x l Hl IH Hx]; intros i j a b Hij Hi Hj.
  - destruct i; discriminate.
  - rewrite Forall_forall in Hx.
    destruct i as [|i], j as [|j]; cbn in Hi, Hj.
    + congruence.
    + injection Hi as <-. apply list_elem_of_lookup_2 in Hj.
      specialize (Hx _ Hj). unfold API_CALL_INTERVAL in *. lia.
    + injection Hj as <-. apply list_elem_of_lookup_2 in Hi.
      specialize (Hx _ Hi). unfold API_CALL_INTERVAL in *. lia.
    + apply (IH i j); auto.
Qed.

Lemma fetchCoinPrice_gate coinId w :
  exists evs,
    lastApiCallTime (exec (fetchCoinPrice coinId) w) = lastApiCallTime w /\
    trace (exec (fetchCoinPrice coinId) w) =
      trace w ++ (clock w, EvGet (IdsSingle coinId) (Some 5%nat)) :: evs /\
    refresh_call_times evs = [].
Proof.
  unfold exec. rewrite fetchCoinPrice_run. cbn [snd].
  destruct (retryAxios_frame (IdsSingle coinId) 5 1000 w)
    as (res & w1 & evs & Hrun & Hs & Hc & Hl & Hu & Ht & Hev).
  rewrite Hrun. apply later_attempts_not_refresh in Hev.
  destruct res as [[|c data]|e]; fields.
  - exists evs. auto.
  - exists (evs ++ [(clock w1, EvSave (map (quoted coinId c (clock w1)) (store w1)))]).
    rewrite Ht, <- app_assoc. cbn [app]. repeat split; auto.
    rewrite refresh_call_times_app, Hev. reflexivity.
  - exists (evs ++ [(clock w1, EvConsole (ErrFetchCoin coinId e))]).
    rewrite Ht, <- app_assoc. cbn [app]. repeat split; auto.
    rewrite refresh_call_times_app, Hev. reflexivity.
Qed.

Lemma fetchAndCachePrices_gate w :
  let w' := exec fetchAndCachePrices w in
  (clock w - lastApiCallTime w < API_CALL_INTERVAL /\
   lastApiCallTime w' = lastApiCallTime w /\
   refresh_call_times (trace w') = refresh_call_times (trace w)) \/
  (API_CALL_INTERVAL <= clock w - lastApiCallTime w /\
   lastApiCallTime w' = clock w /\
   (refresh_call_times (trace w') = refresh_call_times (trace w) \/
    refresh_call_times (trace w') = refresh_call_times (trace w) ++ [clock w])).
Proof.
  unfold exec. rewrite fetchAndCachePrices_run. cbn [snd].
  destruct (Z.ltb_spec (clock w - lastApiCallTime w) API_CALL_INTERVAL) as [Hlt|Hge].
  - left. fields. rewrite refresh_call_times_app. cbn. rewrite app_nil_r. auto.
  - right. split; [assumption|]. cbv zeta.
    destruct (length (coins (store w)) =? 0)%nat.
    + fields. split; [reflexivity|]. left.
      rewrite !refresh_call_times_app. cbn. rewrite !app_nil_r. reflexivity.
    + match goal with |- context [retryAxios ?i 5 1000 ?w1] =>
        destruct (retryAxios_frame i 5 1000 w1)
          as (res & w2 & evs & Hrun & Hs & Hc & Hl & Hu & Ht & Hev)
      end.
      rewrite Hrun. apply later_attempts_not_refresh in Hev. fields.
      destruct res as [data|e]; fields; (split; [assumption|]); right;
        rewrite Ht, !refresh_call_times_app;
        change ((clock w, EvGet (IdsJoined (coins (store w))) (Some 5%nat)) :: evs)
          with ([(clock w, EvGet (IdsJoined (coins (store w))) (Some 5%nat))] ++ evs);
        rewrite !refresh_call_times_app, Hev; cbn; rewrite !app_nil_r;
        reflexivity.
Qed.

Lemma fire_keeps_gate tr w : gate_inv w -> gate_inv (exec (fire tr) w).
Proof.
  unfold gate_inv. intros [Hp Hb]. destruct tr as [|coinId|]; cbn [fire].
  - destruct (fetchAndCachePrices_gate w) as [(_ & Hl & Ht)|(Hge & Hl & [Ht|Ht])];
      rewrite Hl, Ht.
    + auto.
    + split; [assumption|]. eapply Forall_impl; [exact Hb|].
      cbn. intros t Ht'. unfold API_CALL_INTERVAL in *. lia.
    + assert (Hall : Forall (fun a => a + API_CALL_INTERVAL <= clock w)
                       (refresh_call_times (trace w))).
      { eapply Forall_impl; [exact Hb|]. cbn. intros t Ht'. lia. }
      split; [apply paced_snoc; assumption|].
      apply Forall_app. split.
      * eapply Forall_impl; [exact Hall|]. cbn. intros t Ht'.
        unfold API_CALL_INTERVAL in *. lia.
      * repeat constructor. lia.
  - destruct (fetchCoinPrice_gate coinId w) as (evs & Hl & Ht & Hev).
    rewrite Hl, Ht.
    change ((clock w, EvGet (IdsSingle coinId) (Some 5%nat)) :: evs)
      with ([(clock w, EvGet (IdsSingle coinId) (Some 5%nat))] ++ evs).
    rewrite !refresh_call_times_app, Hev. cbn. rewrite !app_nil_r. auto.
  - destruct (background_update_run w) as (w' & Hrun & _ & _ & Hl & Ht).
    unfold exec. rewrite Hrun. cbn [snd]. rewrite Hl, Ht. auto.
Qed.

Lemma run_keeps_gate ts : forall w, gate_inv w -> gate_inv (run ts w).
Proof.
  induction ts as [|[t tr] ts IH]; intros w Hw; cbn [run]; [assumption|].
  apply IH, fire_keeps_gate. exact Hw.
Qed.

(** C1, as stated, fails: a periodic refresh and a background pass one
    millisecond later both request the prices of the whole portfolio. *)
Lemma background_call_ignores_interval :
  ~ apart API_CALL_INTERVAL
      (batch_call_times
         (trace (run [(1000000, Tick); (1000001, Reconcile)]
                   (world0 [bitcoin_priced 0] CacheObj bitcoin_quote)))).
Proof.
  assert (E : batch_call_times
                (trace (run [(1000000, Tick); (1000001, Reconcile)]
                          (world0 [bitcoin_priced 0] CacheObj bitcoin_quote)))
              = [1000000; 1000001]) by (vm_compute; reflexivity).
  rewrite E. intros H.
  specialize (H 0%nat 1%nat 1000000 1000001 ltac:(discriminate) eq_refl eq_refl).
  unfold API_CALL_INTERVAL in H. lia.
Qed.

(** C1 (amended): for every sequence of refresh triggers, no two of the
    calls that the periodic refresh [fetchAndCachePrices] makes for the
    whole portfolio start less than [API_CALL_INTERVAL] apart; a periodic
    refresh that arrives inside that window is skipped, leaving one log
    line and nothing else; the on-demand fetch of one coin is not gated
    and always sends its request. *)
Theorem refresh_calls_keep_interval (ts : list (Z * trigger)) (w v : world)
    (coinId : string) :
  trace w = [] ->
  clock v - lastApiCallTime v < API_CALL_INTERVAL ->
  apart API_CALL_INTERVAL (refresh_call_times (trace (run ts w))) /\
  fetchAndCachePrices v = (Ok tt, emit (EvConsole LogSkipping) v) /\
  exists evs,
    trace (exec (fetchCoinPrice coinId) v) =
      trace v ++ (clock v, EvGet (IdsSingle coinId) (Some 5%nat)) :: evs.
Proof.
  intros Hw Hv. split; [|split].
  - apply paced_apart. apply run_keeps_gate.
    unfold gate_inv. rewrite Hw. split; constructor.
  - rewrite fetchAndCachePrices_run.
    destruct (Z.ltb_spec (clock v - lastApiCallTime v) API_CALL_INTERVAL);
      [reflexivity|lia].
  - destruct (fetchCoinPrice_gate coinId v) as (evs & _ & Ht & _).
    exists evs. exact Ht.
Qed.

Lemma refresh_calls_keep_interval_witness :
  apart API_CALL_INTERVAL
    (refresh_call_times
       (trace (run [(1000000, Tick); (1000010, Tick); (1000020, OnDemand "bitcoin");
                    (1030000, Tick)]
                 (world0 [bitcoin_priced 0] CacheObj bitcoin_quote)))) /\
  fetchAndCachePrices
    (set_lastApiCallTime 990000 (world0 [bitcoin_priced 0] CacheObj bitcoin_quote))
  = (Ok tt, emit (EvConsole LogSkipping)
      (set_lastApiCallTime 990000 (world0 [bitcoin_priced 0] CacheObj bitcoin_quote))).
Proof.
  destruct (refresh_calls_keep_interval
              [(1000000, Tick); (1000010, Tick); (1000020, OnDemand "bitcoin");
               (1030000, Tick)]
              (world0 [bitcoin_priced 0] CacheObj bitcoin_quote)
              (set_lastApiCallTime 990000
                 (world0 [bitcoin_priced 0] CacheObj bitcoin_quote))
              "bitcoin" eq_refl eq_refl) as (H1 & H2 & _).
  split; [exact H1|exact H2].
Defined.

(** ** The portfolio read *)

(** Before the first refresh, and after a refresh of an empty portfolio,
    the cache is the object [{}], which the read cannot iterate. *)
Lemma portfolio_read_fails_on_initial_cache w :
  portfolioCache w = CacheObj -> GET_portfolio w = (Ok (ServerError TypeError), w).
Proof. intros H. unfold GET_portfolio. unfold_m. rewrite H. reflexivity. Qed.

(** A holding whose price is the placeholder ['N/A'], or any other value
    that is truthy without being a number, makes the loop of the read
    throw. *)
Lemma portfolio_row_throws it p totalValue w :
  lastPrice it = Some p -> truthy (usd p) = true -> is_number (usd p) = false ->
  portfolio_row it totalValue w = (Throw TypeError, w).
Proof.
  intros Hp Ht Hn. unfold portfolio_row. rewrite Hp, Ht.
  destruct (usd p); try reflexivity. discriminate.
Qed.

Lemma portfolio_row_world it totalValue w :
  snd (portfolio_row it totalValue w) = w.
Proof.
  unfold portfolio_row.
  destruct (truthy _); [|reflexivity].
  destruct (match lastPrice it with Some p => usd p | None => VUndef end);
    try reflexivity.
  destruct (symbol it); reflexivity.
Qed.

Lemma portfolio_rows_throw items : forall rows totalValue w it p,
  In it items -> lastPrice it = Some p ->
  truthy (usd p) = true -> is_number (usd p) = false ->
  exists e, portfolio_rows items rows totalValue w = (Throw e, w).
Proof.
  induction items as [|x items IH]; intros rows totalValue w it p Hin Hp Ht Hn;
    [destruct Hin|].
  cbn [portfolio_rows]. unfold mbind, M_bind.
  destruct Hin as [->|Hin].
  - rewrite (portfolio_row_throws it p) by assumption. eauto.
  - pose proof (portfolio_row_world x totalValue w) as Hw.
    destruct (portfolio_row x totalValue w) as [[[row total]|e] w1];
      cbn [snd] in Hw; subst w1; eauto.
Qed.

Lemma portfolio_read_fails_on_truthy_price w items it p :
  portfolioCache w = CacheArr items -> In it items -> lastPrice it = Some p ->
  truthy (usd p) = true -> is_number (usd p) = false ->
  exists e, GET_portfolio w = (Ok (ServerError e), w).
Proof.
  intros Hc Hin Hp Ht Hn. unfold GET_portfolio. unfold_m. rewrite Hc.
  cbn [as_array]. unfold_m.
  destruct (portfolio_rows_throw items [] (Num 0) w it p Hin Hp Ht Hn)
    as [e He].
  rewrite He. eauto.
Qed.

(** C2: the read fails on the cache that [POST /api/portfolio/add] leaves.
    With the holding just added still carrying the placeholder price
    ['N/A'], [GET /api/portfolio] answers 500 instead of a line with
    price and value "N/A". *)
Theorem portfolio_read_fails_on_placeholder :
  portfolioCache world_after_add =
    CacheArr [new_holding "bitcoin" (VNum (Num 2))] /\
  fst (GET_portfolio world_after_add) = Ok (ServerError TypeError) /\
  status (ServerError TypeError) = 500.
Proof. vm_compute. repeat split. Qed.

(** ** The background pass *)

Lemma background_update_keeps_cache w :
  portfolioCache (exec background_update w) = portfolioCache w.
Proof.
  destruct (background_update_run w) as (w' & Hrun & _ & Hc & _).
  unfold exec. rewrite Hrun. exact Hc.
Qed.

(** A price given as a number, the form [fetchAndCachePrices] and
    [fetchCoinPrice] read, never passes the test of the background pass. *)
Lemma number_price_has_no_usd_quote c n :
  current_price c = VNum n -> has_usd_quote c = false.
Proof.
  intros H. unfold has_usd_quote. rewrite H. cbn.
  apply andb_false_r.
Qed.

Lemma index_by_id_lookup (P : feed_coin -> Prop) data :
  Forall P data ->
  forall k c, index_by_id data !! k = Some c -> P c.
Proof.
  unfold index_by_id. intros HF.
  assert (Hgen : forall (m : gmap string feed_coin),
            (forall k c, m !! k = Some c -> P c) ->
            forall k c,
              fold_left (fun m c => <[feed_id c := c]> m) data m !! k = Some c ->
              P c).
  { induction HF as [|x data Hx HF IH]; intros m Hm k c; cbn [fold_left].
    - apply Hm.
    - apply IH. intros k' c'. rewrite lookup_insert_Some.
      intros [[_ <-]|[_ H]]; [exact Hx|eapply Hm, H]. }
  apply Hgen. intros k c. rewrite lookup_empty. discriminate.
Qed.

Lemma background_item_no_quote live x w :
  (forall k c, live !! k = Some c -> has_usd_quote c = false) ->
  fst (background_item live x w) = Ok x.
Proof.
  intros Hlive. unfold background_item. unfold_m.
  match goal with |- context [if ?b then _ else _] => destruct b end;
    [|reflexivity].
  destruct (live !! coin x) as [c|] eqn:Hc; [|reflexivity].
  rewrite (Hlive _ _ Hc). reflexivity.
Qed.

Lemma background_loop_no_quote live :
  (forall k c, live !! k = Some c -> has_usd_quote c = false) ->
  forall l w, fst (forM l (background_item live) w) = Ok l.
Proof.
  intros Hlive. induction l as [|x l IH]; intros w; [reflexivity|].
  cbn [forM]. unfold mbind, M_bind, mret, M_ret.
  pose proof (background_item_no_quote live x w Hlive) as Hx.
  destruct (background_item live x w) as [r w1]. cbn [fst] in Hx. subst r.
  specialize (IH w1). destruct (forM l (background_item live) w1) as [r w2].
  cbn [fst] in IH. subst r. reflexivity.
Qed.

(** Whatever the holdings, when the feed gives its prices as numbers the
    background pass saves the list it read, unchanged. *)
Lemma background_update_number_prices w :
  (forall data, upstream w (requests w) = Resolve data ->
     Forall (fun c => is_number (current_price c) = true) data) ->
  store (exec background_update w) = store w.
Proof.
  intros Hnum. unfold exec, background_update.
  unfold mbind at 1. unfold M_bind at 1. unfold getPortfolio at 1.
  unfold mbind at 1. unfold M_bind at 1.
  assert (Hget : exists live w1,
    background_live_data (store w) w = (Ok live, w1) /\
    forall k c, live !! k = Some c -> has_usd_quote c = false).
  { unfold background_live_data, try_catch. cbn zeta.
    destruct (0 <? length (map coin (store w)))%nat.
    - unfold mbind, M_bind, axios_get, mret, M_ret, console.
      destruct (upstream w (requests w)) as [data|st] eqn:Hup.
      + do 2 eexists. split; [reflexivity|].
        apply (index_by_id_lookup (fun c => has_usd_quote c = false)).
        eapply Forall_impl; [apply Hnum; reflexivity|].
        intros c Hc. cbn in Hc. destruct (current_price c) eqn:Hp;
          try discriminate.
        eapply number_price_has_no_usd_quote, Hp.
      + do 2 eexists. split; [reflexivity|].
        intros k c. rewrite lookup_empty. discriminate.
    - do 2 eexists. split; [reflexivity|].
      intros k c. rewrite lookup_empty. discriminate. }
  destruct Hget as (live & w1 & Hrun & Hlive). rewrite Hrun.
  unfold mbind at 1. unfold M_bind at 1.
  pose proof (background_loop_no_quote live Hlive (store w) w1) as Hloop.
  destruct (forM (store w) (background_item live) w1) as [r w2].
  cbn [fst] in Hloop. subst r. unfold_m. reflexivity.
Qed.


(** ** Adding a holding *)

Lemma POST_portfolio_add_run coinId amount w :
  POST_portfolio_add coinId amount w =
    if no_coinId coinId || isNaN amount || num_le (to_number amount) (Num 0)
    then (Ok InvalidCoinOrAmount, w)
    else
      let c := default "" coinId in
      let l := added c amount (store w) in
      (Ok (AddedJson c l),
       exec (fetchCoinPrice c)
         (set_portfolioCache (CacheArr l) (set_store l (emit (EvSave l) w)))).
Proof.
  unfold POST_portfolio_add.
  destruct (no_coinId coinId || isNaN amount || num_le (to_number amount) (Num 0));
    [reflexivity|].
  cbv zeta. unfold try_catch. unfold mbind at 1. unfold M_bind at 1.
  unfold getPortfolio at 1. unfold mbind at 1. unfold M_bind at 1.
  unfold savePortfolio at 1. unfold mbind at 1. unfold M_bind at 1.
  unfold updatePortfolioCache, put_portfolioCache at 1.
  unfold mbind at 1. unfold M_bind at 1.
  rewrite fetchCoinPrice_run. unfold exec. rewrite fetchCoinPrice_run.
  reflexivity.
Qed.

(** A request with a number for amount: the positive ones are stored as
    given, the others are refused and change nothing. *)
Lemma add_number_amount coinId q w :
  coinId <> "" ->
  fst (POST_portfolio_add (Some coinId) (VNum (Num q)) w) =
    if Qle_bool q 0 then Ok InvalidCoinOrAmount
    else Ok (AddedJson coinId (added coinId (VNum (Num q)) (store w))).
Proof.
  intros Hc. rewrite POST_portfolio_add_run. cbn.
  destruct (String.eqb_spec coinId ""); [contradiction|]. cbn.
  destruct (Qle_bool q 0); reflexivity.
Qed.

Lemma add_refused_changes_nothing coinId amount w :
  fst (POST_portfolio_add coinId amount w) = Ok InvalidCoinOrAmount ->
  exec (POST_portfolio_add coinId amount) w = w.
Proof.
  unfold exec. rewrite POST_portfolio_add_run.
  destruct (no_coinId coinId || isNaN amount || num_le (to_number amount) (Num 0));
    [reflexivity|discriminate].
Qed.

Lemma added_new coinId amount l :
  first_holding coinId l = None ->
  added coinId amount l = l ++ [new_holding coinId amount].
Proof. unfold added. intros ->. reflexivity. Qed.

Lemma added_existing coinId amt l it :
  first_holding coinId l = Some it ->
  first_holding coinId (added coinId amt l) =
    Some {| coin := coin it;
            amount := num_add (amount it) (parseFloat amt);
            name := name it; symbol := symbol it;
            lastPrice := lastPrice it |} /\
  length (added coinId amt l) = length l.
Proof.
  unfold added. intros Hf. rewrite Hf.
  unfold first_holding in *.
  induction l as [|x l IH]; [discriminate|]. cbn [List.find bump_first] in *.
  destruct (String.eqb (coin x) coinId) eqn:Hx.
  - injection Hf as <-. cbn [List.find coin]. rewrite Hx. auto.
  - cbn [List.find length]. rewrite Hx.
    destruct (IH Hf) as [H1 H2]. rewrite H1, H2. auto.
Qed.

Lemma coins_bump_first coinId delta l :
  coins (bump_first coinId delta l) = coins l.
Proof.
  induction l as [|it l IH]; [reflexivity|]. cbn.
  destruct (String.eqb (coin it) coinId); cbn; [reflexivity|].
  unfold coins in IH. rewrite IH. reflexivity.
Qed.

(** C5: an amount that is not a number is not always refused. The body
    [{coinId: "bitcoin", amount: true}] passes the validation, since
    [isNaN(true)] is false and [true <= 0] is false, and a holding with
    amount [NaN] is saved. *)
Theorem add_accepts_boolean_amount :
  fst (POST_portfolio_add (Some "bitcoin") (VBool true)
         (world0 [] CacheObj always_429)) =
    Ok (AddedJson "bitcoin"
          [{| coin := "bitcoin"; amount := NaN; name := Some "bitcoin";
              symbol := Some "?";
              lastPrice := Some {| usd := VNA; timestamp := 0 |} |}]) /\
  fst (POST_portfolio_add (Some "bitcoin") (VBool true)
         (world0 [] CacheObj always_429)) <> Ok InvalidCoinOrAmount /\
  map amount (store (exec (POST_portfolio_add (Some "bitcoin") (VBool true))
                       (world0 [] CacheObj always_429))) = [NaN].
Proof. vm_compute. repeat split. discriminate. Qed.

(** ** The periodic refresh of an empty portfolio *)

(** C9: a periodic refresh that passes the gate and loads an empty list
    sets the cache to the empty object, saves the empty list, and sends no
    request to the price feed. *)
Theorem empty_refresh_clears (w : world) :
  API_CALL_INTERVAL <= clock w - lastApiCallTime w ->
  store w = [] ->
  portfolioCache (exec fetchAndCachePrices w) = CacheObj /\
  store (exec fetchAndCachePrices w) = [] /\
  trace (exec fetchAndCachePrices w) =
    trace w ++ [(clock w, EvConsole LogFetching); (clock w, EvSave [])] /\
  requests (exec fetchAndCachePrices w) = requests w /\
  attempts (trace (exec fetchAndCachePrices w)) = attempts (trace w).
Proof.
  intros Hgate Hs. unfold exec. rewrite fetchAndCachePrices_run.
  destruct (Z.ltb_spec (clock w - lastApiCallTime w) API_CALL_INTERVAL); [lia|].
  rewrite Hs. cbn -[API_CALL_INTERVAL].
  repeat split.
  - rewrite <- app_assoc. reflexivity.
  - unfold attempts. rewrite <- app_assoc, List.filter_app. cbn.
    rewrite app_nil_r. reflexivity.
Qed.

Lemma empty_refresh_clears_witness :
  portfolioCache
    (exec fetchAndCachePrices
       (world0 [] (CacheArr [bitcoin_priced 0]) bitcoin_quote)) = CacheObj /\
  attempts (trace (exec fetchAndCachePrices
       (world0 [] (CacheArr [bitcoin_priced 0]) bitcoin_quote))) = 0%nat.
Proof.
  destruct (empty_refresh_clears
              (world0 [] (CacheArr [bitcoin_priced 0]) bitcoin_quote))
    as (Hc & _ & _ & _ & Ha).
  - unfold API_CALL_INTERVAL. cbn. lia.
  - reflexivity.
  - split; [exact Hc|exact Ha].
Defined.

(** ** The price of one coin *)

Lemma GET_coin_price_run coinId w items :
  portfolioCache w = CacheArr items ->
  GET_coin_price coinId w =
    (Ok match first_holding coinId items with
        | Some c =>
            match lastPrice c with
            | Some p =>
                if not_NA (usd p) then
                  PriceJson (usd p)
                    (ToFixed (num_mul (amount c) (to_number (usd p))) 2)
                else PriceNotAvailableYet
            | None => PriceNotAvailableYet
            end
        | None => PriceNotAvailableYet
        end, w).
Proof.
  intros H. unfold GET_coin_price, first_holding. unfold_m. rewrite H.
  cbn [as_array]. unfold_m.
  destruct (List.find _ items) as [c|]; [|reflexivity].
  destruct (lastPrice c) as [p|]; [|reflexivity].
  destruct (not_NA (usd p)); reflexivity.
Qed.

Lemma not_NA_spec v : not_NA v = true <-> v <> VNA.
Proof. destruct v; cbn; split; congruence. Qed.

(** C7, as stated, fails: a price observed long ago is still served. *)
Lemma stale_price_is_served :
  fst (GET_coin_price "bitcoin" world_stale) =
    Ok (PriceJson (VNum (Num 50000)) (ToFixed (Num (2 * 50000)) 2)) /\
  ~ fresh_entry (clock world_stale) "bitcoin" [bitcoin_priced 0].
Proof.
  split; [reflexivity|].
  intros (c & p & Hin & _ & Hp & Hfresh).
  destruct Hin as [<-|[]]. injection Hp as <-.
  vm_compute in Hfresh. discriminate.
Qed.

(** C7 (amended): with the cache holding a list, the price of a coin is
    answered with [{price, value}], [value] being [amount * price] to two
    decimals, if and only if the first cache entry of that coin has a
    [lastPrice] whose [usd] is not ['N/A'], however old it is; in every
    other case the answer is "Price not available yet" (404). *)
Theorem coin_price_served_iff (coinId : string) (w : world)
    (items : list item) :
  portfolioCache w = CacheArr items ->
  (forall price value,
     fst (GET_coin_price coinId w) = Ok (PriceJson price value) <->
     exists c p,
       first_holding coinId items = Some c /\ lastPrice c = Some p /\
       usd p <> VNA /\ price = usd p /\
       value = ToFixed (num_mul (amount c) (to_number (usd p))) 2) /\
  ((forall price value,
      fst (GET_coin_price coinId w) <> Ok (PriceJson price value)) ->
   fst (GET_coin_price coinId w) = Ok PriceNotAvailableYet) /\
  snd (GET_coin_price coinId w) = w.
Proof.
  intros H. rewrite (GET_coin_price_run coinId w items H). cbn [fst snd].
  split; [|split; [|reflexivity]].
  - intros price value. split.
    + destruct (first_holding coinId items) as [c|]; [|discriminate].
      destruct (lastPrice c) as [p|] eqn:Hp; [|discriminate].
      destruct (not_NA (usd p)) eqn:Hna; [|discriminate].
      intros [= <- <-]. exists c, p.
      repeat split; auto. apply not_NA_spec, Hna.
    + intros (c & p & -> & -> & Hna & -> & ->).
      apply not_NA_spec in Hna. rewrite Hna. reflexivity.
  - intros Hno.
    destruct (first_holding coinId items) as [c|]; [|reflexivity].
    destruct (lastPrice c) as [p|]; [|reflexivity].
    destruct (not_NA (usd p)); [|reflexivity].
    exfalso. eapply Hno. reflexivity.
Qed.

Lemma coin_price_served_iff_witness :
  fst (GET_coin_price "bitcoin"
         (world0 [] (CacheArr [bitcoin_priced 0]) bitcoin_quote)) =
    Ok (PriceJson (VNum (Num 50000)) (ToFixed (Num (2 * 50000)) 2)) /\
  fst (GET_coin_price "ethereum"
         (world0 [] (CacheArr [bitcoin_priced 0]) bitcoin_quote)) =
    Ok PriceNotAvailableYet.
Proof.
  split.
  - destruct (coin_price_served_iff "bitcoin"
                (world0 [] (CacheArr [bitcoin_priced 0]) bitcoin_quote)
                [bitcoin_priced 0] eq_refl) as (Hiff & _ & _).
    apply Hiff. exists (bitcoin_priced 0), (Price (VNum (Num 50000)) 0).
    repeat split. discriminate.
  - destruct (coin_price_served_iff "ethereum"
                (world0 [] (CacheArr [bitcoin_priced 0]) bitcoin_quote)
                [bitcoin_priced 0] eq_refl) as (_ & Hnot & _).
    apply Hnot. intros price value. discriminate.
Defined.

(** ** Removing a holding *)

Lemma without_cons coinId it l :
  without coinId (it :: l) =
    if String.eqb (coin it) coinId then without coinId l
    else it :: without coinId l.
Proof.
  unfold without. cbn [List.filter].
  destruct (String.eqb (coin it) coinId); reflexivity.
Qed.

Lemma without_absent coinId l :
  ~ In coinId (coins l) -> without coinId l = l.
Proof.
  induction l as [|it l IH]; [reflexivity|]. intros Hn.
  rewrite without_cons.
  destruct (String.eqb_spec (coin it) coinId) as [He|Hne].
  - exfalso. apply Hn. left. exact He.
  - f_equal. apply IH. intros Hin. apply Hn. right. exact Hin.
Qed.

Lemma without_gone coinId l : ~ In coinId (coins (without coinId l)).
Proof.
  induction l as [|it l IH]; [intros []|].
  rewrite without_cons.
  destruct (String.eqb_spec (coin it) coinId) as [He|Hne]; [exact IH|].
  intros [He|Hin]; [contradiction|]. apply IH, Hin.
Qed.

Lemma without_length coinId l :
  (length (without coinId l)
   + count_occ String.string_dec (coins l) coinId = length l)%nat.
Proof.
  induction l as [|it l IH]; [reflexivity|].
  rewrite without_cons. cbn [coins map count_occ length].
  destruct (String.eqb_spec (coin it) coinId) as [He|Hne];
    destruct (String.string_dec (coin it) coinId); try contradiction;
    unfold coins in IH; cbn [length]; lia.
Qed.

Lemma without_shorter coinId l : (length (without coinId l) <= length l)%nat.
Proof. apply List.filter_length_le. Qed.

Lemma DELETE_portfolio_remove_run coinId w :
  DELETE_portfolio_remove coinId w =
    if (length (without coinId (store w)) <? length (store w))%nat then
      (Ok (RemovedJson coinId),
       set_portfolioCache (CacheArr (without coinId (store w)))
         (set_store (without coinId (store w))
            (emit (EvSave (without coinId (store w))) w)))
    else (Ok (CoinNotFound coinId), w).
Proof.
  unfold DELETE_portfolio_remove, without. unfold_m. cbv zeta.
  destruct (_ <? _)%nat; reflexivity.
Qed.

(** C6: removing a coin that is not in the stored list answers "not
    found" (404) and changes neither the list nor the cache; removing a
    coin that is there, once, answers 200, leaves a list one entry
    shorter without that coin, and sets the cache to that same list. *)
Theorem remove_outcomes (coinId : string) (w : world) :
  (~ In coinId (coins (store w)) ->
   DELETE_portfolio_remove coinId w = (Ok (CoinNotFound coinId), w) /\
   status (CoinNotFound coinId) = 404) /\
  (count_occ String.string_dec (coins (store w)) coinId = 1%nat ->
   exists w',
     DELETE_portfolio_remove coinId w = (Ok (RemovedJson coinId), w') /\
     status (RemovedJson coinId) = 200 /\
     S (length (store w')) = length (store w) /\
     store w' = without coinId (store w) /\
     ~ In coinId (coins (store w')) /\
     portfolioCache w' = CacheArr (store w')).
Proof.
  rewrite DELETE_portfolio_remove_run. split.
  - intros Hn. rewrite (without_absent _ _ Hn).
    rewrite Nat.ltb_irrefl. split; reflexivity.
  - intros Hone. pose proof (without_length coinId (store w)) as Hlen.
    destruct (Nat.ltb_spec (length (without coinId (store w)))
                (length (store w))); [|lia].
    eexists. split; [reflexivity|]. fields.
    repeat split; auto; [lia|apply without_gone].
Qed.

Lemma remove_outcomes_witness :
  fst (DELETE_portfolio_remove "dogecoin"
         (world0 [bitcoin_priced 0; ether_priced 0] CacheObj bitcoin_quote)) =
    Ok (CoinNotFound "dogecoin") /\
  exists w',
    DELETE_portfolio_remove "bitcoin"
      (world0 [bitcoin_priced 0; ether_priced 0] CacheObj bitcoin_quote) =
      (Ok (RemovedJson "bitcoin"), w') /\
    portfolioCache w' = CacheArr [ether_priced 0].
Proof.
  split.
  - destruct (remove_outcomes "dogecoin"
                (world0 [bitcoin_priced 0; ether_priced 0] CacheObj bitcoin_quote))
      as [H _].
    destruct H as [H _].
    + cbn. intros [H|[H|[]]]; discriminate.
    + rewrite H. reflexivity.
  - destruct (remove_outcomes "bitcoin"
                (world0 [bitcoin_priced 0; ether_priced 0] CacheObj bitcoin_quote))
      as [_ H].
    destruct H as (w' & Hrun & _ & _ & Hs & _ & Hc).
    + reflexivity.
    + exists w'. split; [exact Hrun|]. rewrite Hc, Hs. reflexivity.
Defined.

(** ** Which holdings an operation touches *)

Lemma coins_quoted coinId c t l : coins (map (quoted coinId c t) l) = coins l.
Proof.
  unfold coins. rewrite map_map. apply map_ext. intros it. unfold quoted.
  destruct (String.eqb (coin it) coinId); reflexivity.
Qed.

Lemma coins_refreshed live t l : coins (map (refreshed live t) l) = coins l.
Proof.
  unfold coins. rewrite map_map. apply map_ext. intros it. unfold refreshed.
  destruct (live !! coin it) as [c|]; [|reflexivity].
  destruct (truthy (current_price c)); reflexivity.
Qed.

Lemma lookup_map {A B : Type} (f : A -> B) (l : list A) (i : nat) :
  map f l !! i = option_map f (l !! i).
Proof.
  revert i. induction l as [|x l IH]; intros [|i]; cbn; auto.
Qed.

(** The two ways [fetchCoinPrice] can end. *)
Lemma fetchCoinPrice_store coinId w :
  (store (exec (fetchCoinPrice coinId) w) = store w /\
   portfolioCache (exec (fetchCoinPrice coinId) w) = portfolioCache w) \/
  (exists c t,
     store (exec (fetchCoinPrice coinId) w) =
       map (quoted coinId c t) (store w) /\
     portfolioCache (exec (fetchCoinPrice coinId) w) =
       CacheArr (store (exec (fetchCoinPrice coinId) w)) /\
     In (EvSave (store (exec (fetchCoinPrice coinId) w)))
        (map snd (trace (exec (fetchCoinPrice coinId) w)))).
Proof.
  unfold exec. rewrite fetchCoinPrice_run. cbn [snd].
  destruct (retryAxios_frame (IdsSingle coinId) 5 1000 w)
    as (res & w1 & evs & Hrun & Hs & Hc & Hl & Hu & Ht & Hev).
  rewrite Hrun. destruct res as [[|c data]|e]; fields.
  - left. auto.
  - right. exists c, (clock w1). rewrite Hs. repeat split.
    rewrite map_app. apply in_or_app. right. left. reflexivity.
  - left. auto.
Qed.

(** C8: the on-demand fetch either changes nothing, or saves a list, which
    also becomes the cache, in which every holding keeps its place, its
    coin and its amount, and every holding of another coin is exactly the
    holding read from the store. *)
Theorem fetchCoinPrice_frame (coinId : string) (w : world) :
  (store (exec (fetchCoinPrice coinId) w) = store w /\
   portfolioCache (exec (fetchCoinPrice coinId) w) = portfolioCache w) \/
  (portfolioCache (exec (fetchCoinPrice coinId) w) =
     CacheArr (store (exec (fetchCoinPrice coinId) w)) /\
   In (EvSave (store (exec (fetchCoinPrice coinId) w)))
      (map snd (trace (exec (fetchCoinPrice coinId) w))) /\
   length (store (exec (fetchCoinPrice coinId) w)) = length (store w) /\
   forall (i : nat) (it : item),
     store w !! i = Some it ->
     exists it',
       store (exec (fetchCoinPrice coinId) w) !! i = Some it' /\
       coin it' = coin it /\ amount it' = amount it /\
       (coin it <> coinId -> it' = it)).
Proof.
  destruct (fetchCoinPrice_store coinId w) as [H|(c & t & Hs & Hc & Hsave)];
    [left; exact H|right].
  split; [exact Hc|]. split; [exact Hsave|]. rewrite Hs.
  split; [apply length_map|].
  intros i it Hi. exists (quoted coinId c t it).
  rewrite lookup_map, Hi. split; [reflexivity|].
  unfold quoted. destruct (String.eqb_spec (coin it) coinId);
    repeat split; auto; contradiction.
Qed.

Lemma fetchCoinPrice_frame_witness :
  store (exec (fetchCoinPrice "bitcoin")
           (world0 [ether_priced 0; bitcoin_unpriced] CacheObj bitcoin_quote))
    !! 0%nat = Some (ether_priced 0).
Proof.
  destruct (fetchCoinPrice_frame "bitcoin"
              (world0 [ether_priced 0; bitcoin_unpriced] CacheObj bitcoin_quote))
    as [[Hs _]|(_ & _ & _ & H)].
  - rewrite Hs. reflexivity.
  - destruct (H 0%nat (ether_priced 0) eq_refl) as (it' & Hi & _ & _ & Heq).
    rewrite Hi. f_equal. apply Heq. discriminate.
Defined.

(** ** Distinct coin ids *)

Lemma coins_fetchCoinPrice coinId w :
  coins (store (exec (fetchCoinPrice coinId) w)) = coins (store w).
Proof.
  destruct (fetchCoinPrice_store coinId w) as [[-> _]|(c & t & -> & _)];
    [reflexivity|apply coins_quoted].
Qed.

Lemma coins_fetchAndCachePrices w :
  coins (store (exec fetchAndCachePrices w)) = coins (store w).
Proof.
  unfold exec. rewrite fetchAndCachePrices_run. cbn [snd].
  destruct (clock w - lastApiCallTime w <? API_CALL_INTERVAL); [reflexivity|].
  cbv zeta. destruct (Nat.eqb_spec (length (coins (store w))) 0) as [He|Hne].
  - fields. destruct (coins (store w)); [reflexivity|discriminate].
  - match goal with |- context [retryAxios ?i 5 1000 ?w1] =>
      destruct (retryAxios_frame i 5 1000 w1)
        as (res & w2 & evs & Hrun & Hs & Hc & Hl & Hu & Ht & Hev)
    end.
    rewrite Hrun. destruct res as [data|e]; fields.
    + apply coins_refreshed.
    + rewrite Hs. reflexivity.
Qed.

Lemma coins_background_update w :
  coins (store (exec background_update w)) = coins (store w).
Proof.
  destruct (background_update_run w) as (w' & Hrun & Hs & _).
  unfold exec. rewrite Hrun. exact Hs.
Qed.

Lemma first_holding_none coinId l :
  first_holding coinId l = None <-> ~ In coinId (coins l).
Proof.
  unfold first_holding. induction l as [|it l IH]; cbn; [tauto|].
  destruct (String.eqb_spec (coin it) coinId) as [He|Hne].
  - split; [discriminate|]. intros Hn. exfalso. apply Hn. left. exact He.
  - rewrite IH. tauto.
Qed.

Lemma coins_added coinId amount l :
  coins (added coinId amount l) =
    if in_dec String.string_dec coinId (coins l) then coins l else coins l ++ [coinId].
Proof.
  unfold added. destruct (first_holding coinId l) as [c|] eqn:Hf.
  - destruct (in_dec String.string_dec coinId (coins l)) as [_|Hn].
    + apply coins_bump_first.
    + apply first_holding_none in Hn. congruence.
  - destruct (in_dec String.string_dec coinId (coins l)) as [Hin|_].
    + apply first_holding_none in Hf. contradiction.
    + unfold coins. rewrite map_app. reflexivity.
Qed.

Lemma distinct_snoc (l : list string) (x : string) :
  List.NoDup l -> ~ In x l -> List.NoDup (l ++ [x]).
Proof.
  induction 1 as [|y l Hy Hl IH]; intros Hx; cbn.
  - constructor; [intros []|constructor].
  - constructor.
    + intros [Hin|[->|[]]]%in_app_or; [contradiction|].
      apply Hx. left. reflexivity.
    + apply IH. intros Hin. apply Hx. right. exact Hin.
Qed.

Lemma without_distinct coinId l :
  List.NoDup (coins l) -> List.NoDup (coins (without coinId l)).
Proof.
  induction l as [|it l IH]; [auto|]. intros Hnd.
  inversion Hnd as [|? ? Hnotin Hnd']; subst. rewrite without_cons.
  destruct (String.eqb (coin it) coinId); [auto|].
  cbn. constructor; [|auto].
  intros Hin. apply Hnotin. clear -Hin.
  induction l as [|x l IH]; [destruct Hin|].
  rewrite without_cons in Hin.
  destruct (String.eqb (coin x) coinId); [right; auto|].
  destruct Hin as [He|Hin]; [left; exact He|right; auto].
Qed.

Lemma without_same_length coinId l :
  length (without coinId l) = length l -> ~ In coinId (coins l).
Proof.
  intros Hlen. pose proof (without_length coinId l) as H.
  apply (count_occ_not_In String.string_dec). lia.
Qed.

(** C10: when the coin ids of the stored list are pairwise distinct, they
    still are after each operation. Adding a coin that is already there
    leaves the list of coin ids as it was; after a removal the coin is in
    no entry; the periodic refresh, the on-demand fetch and the background
    pass leave the list of coin ids as it was. *)
Theorem coin_ids_stay_distinct (w : world) :
  distinct w ->
  (forall coinId amount,
     distinct (exec (POST_portfolio_add coinId amount) w) /\
     (In (default "" coinId) (coins (store w)) ->
      coins (store (exec (POST_portfolio_add coinId amount) w)) =
        coins (store w))) /\
  (forall coinId,
     distinct (exec (DELETE_portfolio_remove coinId) w) /\
     ~ In coinId (coins (store (exec (DELETE_portfolio_remove coinId) w)))) /\
  (distinct (exec fetchAndCachePrices w) /\
   coins (store (exec fetchAndCachePrices w)) = coins (store w)) /\
  (forall coinId,
     distinct (exec (fetchCoinPrice coinId) w) /\
     coins (store (exec (fetchCoinPrice coinId) w)) = coins (store w)) /\
  (distinct (exec background_update w) /\
   coins (store (exec background_update w)) = coins (store w)).
Proof.
  unfold distinct. intros Hnd. split; [|split; [|split; [|split]]].
  - intros coinId amount. unfold exec. rewrite POST_portfolio_add_run.
    destruct (no_coinId coinId || isNaN amount
              || num_le (to_number amount) (Num 0)); [auto|].
    cbn [snd]. rewrite coins_fetchCoinPrice. fields.
    rewrite coins_added.
    destruct (in_dec String.string_dec (default "" coinId) (coins (store w)))
      as [Hin|Hn].
    + auto.
    + split; [|contradiction].
      apply distinct_snoc; assumption.
  - intros coinId. unfold exec. rewrite DELETE_portfolio_remove_run.
    destruct (Nat.ltb_spec (length (without coinId (store w)))
                (length (store w))) as [Hlt|Hge]; cbn [snd]; fields.
    + split; [apply without_distinct, Hnd|apply without_gone].
    + split; [exact Hnd|]. apply without_same_length.
      pose proof (without_shorter coinId (store w)). lia.
  - rewrite coins_fetchAndCachePrices. auto.
  - intros coinId. rewrite coins_fetchCoinPrice. auto.
  - rewrite coins_background_update. auto.
Qed.

Lemma coin_ids_stay_distinct_witness :
  distinct (exec (POST_portfolio_add (Some "bitcoin") (VNum (Num 3)))
              (world0 [bitcoin_priced 0; ether_priced 0] CacheObj bitcoin_quote)) /\
  distinct (exec (DELETE_portfolio_remove "bitcoin")
              (world0 [bitcoin_priced 0; ether_priced 0] CacheObj bitcoin_quote)) /\
  distinct (exec fetchAndCachePrices
              (world0 [bitcoin_priced 0; ether_priced 0] CacheObj bitcoin_quote)).
Proof.
  assert (Hw : distinct (world0 [bitcoin_priced 0; ether_priced 0] CacheObj
                           bitcoin_quote)).
  { unfold distinct. cbn. constructor; [intros [H|[]]; discriminate|].
    constructor; [intros []|constructor]. }
  destruct (coin_ids_stay_distinct _ Hw) as (Hadd & Hdel & Href & _).
  split; [apply Hadd|]. split; [apply Hdel|apply Href].
Defined.

(** ** Further properties of the retry *)

Lemma attempts_app tr1 tr2 :
  attempts (tr1 ++ tr2) = (attempts tr1 + attempts tr2)%nat.
Proof. unfold attempts. rewrite List.filter_app, length_app. reflexivity. Qed.

Lemma pauses_app tr1 tr2 : pauses (tr1 ++ tr2) = pauses tr1 ++ pauses tr2.
Proof. apply flat_map_app. Qed.

Lemma total_app l1 l2 : total (l1 ++ l2) = total l1 + total l2.
Proof.
  unfold total. induction l1 as [|x l1 IH]; cbn; [reflexivity|].
  rewrite IH. lia.
Qed.

Lemma retryAxios_answered ids retries delay w data :
  upstream w (requests w) = Resolve data ->
  retryAxios ids retries delay w =
    (Ok data, count_request (emit (EvGet ids (Some retries)) w)).
Proof.
  intros Hup. destruct retries; cbn [retryAxios];
    unfold try_catch, axios_get; rewrite Hup; reflexivity.
Qed.

Lemma retryAxios_cost ids retries : forall delay w,
  0 <= delay ->
  exists res w' evs,
    retryAxios ids retries delay w = (res, w') /\
    trace w' = trace w ++ evs /\
    (1 <= attempts evs <= S retries)%nat /\
    0 <= total (pauses evs) <= delay * (2 ^ Z.of_nat retries - 1) /\
    requests w' = (requests w + attempts evs)%nat /\
    clock w' = clock w + total (pauses evs).
Proof.
  induction retries as [|r IH]; intros delay w Hd.
  - cbn [retryAxios]. unfold try_catch, axios_get, throw.
    destruct (upstream w (requests w)); do 2 eexists;
      exists [(clock w, EvGet ids (Some 0%nat))];
      (split; [reflexivity|]); cbn; repeat split; lia.
  - cbn [retryAxios]. unfold try_catch at 1. unfold axios_get.
    assert (Hpow : 1 <= 2 ^ Z.of_nat r)
      by (apply Z.pow_le_mono_r with (b := 0); lia).
    assert (Hbound : 0 <= delay * (2 ^ Z.of_nat (S r) - 1))
      by (rewrite Nat2Z.inj_succ, Z.pow_succ_r by lia; nia).
    destruct (upstream w (requests w)) as [data|st].
    + do 2 eexists. exists [(clock w, EvGet ids (Some (S r)))].
      split; [reflexivity|]. cbn -[Z.pow Z.of_nat]. repeat split; lia.
    + destruct (is_429 (AxiosError st)).
      * unfold mbind, M_bind, console, sleep.
        cbn -[retryAxios Z.mul Z.pow Z.of_nat].
        match goal with |- context [retryAxios ids r ?d ?w1] =>
          destruct (IH d w1) as (res & w' & evs & Hrun & Ht & Ha & Hp & Hr & Hc);
            [lia|]
        end.
        rewrite Hrun. fields.
        exists res, w',
          ([(clock w, EvGet ids (Some (S r)));
            (clock w, EvConsole (WarnRateLimit delay));
            (clock w, EvSleep delay)] ++ evs).
        split; [reflexivity|].
        split; [rewrite Ht, <- !app_assoc; reflexivity|].
        rewrite attempts_app, pauses_app, total_app.
        change (attempts [(clock w, EvGet ids (Some (S r)));
                          (clock w, EvConsole (WarnRateLimit delay));
                          (clock w, EvSleep delay)]) with 1%nat.
        change (total (pauses [(clock w, EvGet ids (Some (S r)));
                          (clock w, EvConsole (WarnRateLimit delay));
                          (clock w, EvSleep delay)])) with (delay + 0).
        rewrite Nat2Z.inj_succ, Z.pow_succ_r by lia.
        repeat split; try lia; nia.
      * unfold throw. do 2 eexists. exists [(clock w, EvGet ids (Some (S r)))].
        split; [reflexivity|]. cbn -[Z.pow Z.of_nat]. repeat split; lia.
Qed.

(** X1: whatever the feed answers, one call of [retryAxios] sends at most
    [retries + 1] requests and pauses for at most [delay * (2^retries - 1)]
    in all: six requests and 31 seconds with the default arguments. Each
    request is counted once and the clock advances by the pauses only. *)
Theorem retryAxios_bounded (ids : ids_param) (retries : nat) (delay : Z)
    (w : world) :
  0 <= delay ->
  exists evs,
    trace (exec (retryAxios ids retries delay) w) = trace w ++ evs /\
    (1 <= attempts evs <= S retries)%nat /\
    0 <= total (pauses evs) <= delay * (2 ^ Z.of_nat retries - 1) /\
    requests (exec (retryAxios ids retries delay) w) =
      (requests w + attempts evs)%nat /\
    clock (exec (retryAxios ids retries delay) w) =
      clock w + total (pauses evs).
Proof.
  intros Hd.
  destruct (retryAxios_cost ids retries delay w Hd)
    as (res & w' & evs & Hrun & H).
  exists evs. unfold exec. rewrite Hrun. exact H.
Qed.

Lemma retryAxios_bounded_witness :
  exists evs,
    trace (exec (retryAxios (IdsSingle "bitcoin") 5 1000)
             (world0 [] CacheObj always_429)) = evs /\
    (attempts evs <= 6)%nat /\ total (pauses evs) <= 31000.
Proof.
  destruct (retryAxios_bounded (IdsSingle "bitcoin") 5 1000
              (world0 [] CacheObj always_429))
    as (evs & Ht & Ha & Hp & _); [lia|].
  exists evs. split; [exact Ht|]. split; [lia|].
  change (1000 * (2 ^ Z.of_nat 5 - 1)) with 31000 in Hp. lia.
Defined.

Lemma retryAxios_after_429s ids k : forall retries delay w data,
  (k <= retries)%nat ->
  rate_limited_for k w ->
  upstream w (requests w + k) = Resolve data ->
  exists w' evs,
    retryAxios ids retries delay w = (Ok data, w') /\
    trace w' = trace w ++ evs /\
    attempts evs = S k /\
    pauses evs = doubling delay k /\
    clock w' = clock w + total (doubling delay k) /\
    store w' = store w.
Proof.
  induction k as [|k IH]; intros retries delay w data Hk Hlim Hup.
  - rewrite Nat.add_0_r in Hup.
    rewrite (retryAxios_answered _ _ _ _ _ Hup).
    eexists. exists [(clock w, EvGet ids (Some retries))].
    split; [reflexivity|]. cbn. repeat split. lia.
  - destruct retries as [|r]; [lia|].
    cbn [retryAxios]. unfold try_catch at 1. unfold axios_get.
    pose proof (Hlim 0%nat ltac:(lia)) as H0. rewrite Nat.add_0_r in H0.
    rewrite H0. cbn [is_429]. change (429 =? 429) with true. cbv iota.
    unfold mbind, M_bind, console, sleep. cbn -[retryAxios Z.mul].
    match goal with |- context [retryAxios ids r ?d ?w1] =>
      destruct (IH r d w1 data) as (w' & evs & Hrun & Ht & Ha & Hp & Hc & Hs)
    end.
    + lia.
    + intros j Hj. cbn. rewrite <- Nat.add_succ_r. apply Hlim. lia.
    + cbn. rewrite <- Nat.add_succ_r. exact Hup.
    + rewrite Hrun. fields.
      exists w', ([(clock w, EvGet ids (Some (S r)));
                   (clock w, EvConsole (WarnRateLimit delay));
                   (clock w, EvSleep delay)] ++ evs).
      split; [reflexivity|].
      split; [rewrite Ht, <- !app_assoc; reflexivity|].
      rewrite attempts_app, pauses_app, Ha, Hp.
      split; [reflexivity|]. split; [reflexivity|].
      split; [|exact Hs].
      rewrite Hc. cbn [doubling total fold_right]. unfold total. lia.
Qed.

(** X2: when the feed answers 429 to the first [k] requests and then
    answers, with [k] no more than the retries allowed, [retryAxios]
    returns that answer after [k + 1] requests and [k] pauses, each twice
    the one before, starting at [delay]. *)
Theorem retryAxios_recovers (ids : ids_param) (k retries : nat) (delay : Z)
    (w : world) (data : list feed_coin) :
  (k <= retries)%nat ->
  rate_limited_for k w ->
  upstream w (requests w + k) = Resolve data ->
  exists evs,
    fst (retryAxios ids retries delay w) = Ok data /\
    trace (exec (retryAxios ids retries delay) w) = trace w ++ evs /\
    attempts evs = S k /\
    pauses evs = doubling delay k /\
    clock (exec (retryAxios ids retries delay) w) =
      clock w + total (doubling delay k).
Proof.
  intros Hk Hlim Hup.
  destruct (retryAxios_after_429s ids k retries delay w data Hk Hlim Hup)
    as (w' & evs & Hrun & Ht & Ha & Hp & Hc & _).
  exists evs. unfold exec. rewrite Hrun. cbn [fst snd]. auto.
Qed.

Lemma retryAxios_recovers_witness :
  fst (retryAxios (IdsSingle "bitcoin") 5 1000
         (world0 [] CacheObj
            (fun k => if (k <? 2)%nat then Reject (Some 429)
                      else bitcoin_quote k))) =
    Ok [FeedCoin "bitcoin" (VNum (Num 50000)) "Bitcoin" "btc"].
Proof.
  destruct (retryAxios_recovers (IdsSingle "bitcoin") 2 5 1000
              (world0 [] CacheObj
                 (fun k => if (k <? 2)%nat then Reject (Some 429)
                           else bitcoin_quote k))
              [FeedCoin "bitcoin" (VNum (Num 50000)) "Bitcoin" "btc"])
    as (evs & Hres & _).
  - lia.
  - intros j Hj. cbn. destruct j as [|[|j]]; [reflexivity|reflexivity|lia].
  - reflexivity.
  - exact Hres.
Defined.

(** ** Further properties of the refresh *)




Lemma gate_open w :
  API_CALL_INTERVAL <= clock w - lastApiCallTime w ->
  (clock w - lastApiCallTime w <? API_CALL_INTERVAL) = false.
Proof. intros H. apply Z.ltb_ge. exact H. Qed.

Lemma store_not_empty w :
  store w <> [] -> (length (coins (store w)) =? 0)%nat = false.
Proof.
  intros H. apply Nat.eqb_neq. unfold coins. rewrite length_map.
  destruct (store w); [contradiction|discriminate].
Qed.

(** A refresh that passes the gate and is answered at once. *)
Lemma fetchAndCachePrices_answered w data :
  API_CALL_INTERVAL <= clock w - lastApiCallTime w ->
  store w <> [] ->
  upstream w (requests w) = Resolve data ->
  store (exec fetchAndCachePrices w) =
    map (refreshed (index_by_id data) (clock w)) (store w) /\
  portfolioCache (exec fetchAndCachePrices w) =
    CacheArr (store (exec fetchAndCachePrices w)) /\
  lastApiCallTime (exec fetchAndCachePrices w) = clock w /\
  clock (exec fetchAndCachePrices w) = clock w.
Proof.
  intros Hgate Hne Hup. unfold exec. rewrite fetchAndCachePrices_run.
  rewrite (gate_open w Hgate), (store_not_empty w Hne). cbv zeta.
  rewrite (retryAxios_answered _ _ _ _ data) by exact Hup.
  fields. auto.
Qed.

Lemma refreshed_coin live t it : coin (refreshed live t it) = coin it.
Proof.
  unfold refreshed. destruct (live !! coin it) as [c|]; [|reflexivity].
  destruct (truthy (current_price c)); reflexivity.
Qed.

(** X4: a refresh that passes the gate and is answered at once makes the
    saved list the cache and records the time of the call; it gives every
    holding whose coin the answer quotes with a truthy price that price,
    the time of the refresh, and the name and symbol of the answer, and
    leaves every other holding as it was. *)
Theorem refresh_writes_quotes (w : world) (data : list feed_coin) :
  API_CALL_INTERVAL <= clock w - lastApiCallTime w ->
  store w <> [] ->
  upstream w (requests w) = Resolve data ->
  portfolioCache (exec fetchAndCachePrices w) =
    CacheArr (store (exec fetchAndCachePrices w)) /\
  lastApiCallTime (exec fetchAndCachePrices w) = clock w /\
  length (store (exec fetchAndCachePrices w)) = length (store w) /\
  forall (i : nat) (it : item),
    store w !! i = Some it ->
    (forall c,
       index_by_id data !! coin it = Some c ->
       truthy (current_price c) = true ->
       store (exec fetchAndCachePrices w) !! i =
         Some {| coin := coin it; amount := amount it;
                 name := Some (feed_name c); symbol := Some (feed_symbol c);
                 lastPrice := Some {| usd := current_price c;
                                      timestamp := clock w |} |}) /\
    (index_by_id data !! coin it = None ->
     store (exec fetchAndCachePrices w) !! i = Some it) /\
    (forall c,
       index_by_id data !! coin it = Some c ->
       truthy (current_price c) = false ->
       store (exec fetchAndCachePrices w) !! i = Some it).
Proof.
  intros Hgate Hne Hup.
  destruct (fetchAndCachePrices_answered w data Hgate Hne Hup)
    as (Hs & Hc & Hl & _).
  split; [exact Hc|]. split; [exact Hl|]. rewrite Hs.
  split; [apply length_map|].
  intros i it Hi. rewrite lookup_map, Hi. cbn [option_map]. unfold refreshed.
  split; [|split].
  - intros c -> ->. reflexivity.
  - intros ->. reflexivity.
  - intros c -> ->. reflexivity.
Qed.

Lemma refresh_writes_quotes_witness :
  store (exec fetchAndCachePrices
           (world0 [bitcoin_unpriced; ether_priced 0] CacheObj bitcoin_quote))
    !! 0%nat = Some (bitcoin_priced 1000000) /\
  store (exec fetchAndCachePrices
           (world0 [bitcoin_unpriced; ether_priced 0] CacheObj bitcoin_quote))
    !! 1%nat = Some (ether_priced 0).
Proof.
  destruct (refresh_writes_quotes
              (world0 [bitcoin_unpriced; ether_priced 0] CacheObj bitcoin_quote)
              [FeedCoin "bitcoin" (VNum (Num 50000)) "Bitcoin" "btc"])
    as (_ & _ & _ & H).
  - unfold API_CALL_INTERVAL. cbn. lia.
  - discriminate.
  - reflexivity.
  - destruct (H 0%nat bitcoin_unpriced eq_refl) as (H0 & _ & _).
    destruct (H 1%nat (ether_priced 0) eq_refl) as (_ & H1 & _).
    split; [exact (H0 _ eq_refl eq_refl)|exact (H1 eq_refl)].
Defined.

Lemma retryAxios_fails ids retries delay w :
  refresh_fails w ->
  exists e w',
    retryAxios ids retries delay w = (Throw e, w') /\
    store w' = store w /\ portfolioCache w' = portfolioCache w /\
    lastApiCallTime w' = lastApiCallTime w.
Proof.
  intros [Hlim|(st & Hup & Hst)].
  - rewrite (retryAxios_all_429 ids retries delay w Hlim).
    do 2 eexists. split; [reflexivity|]. auto.
  - rewrite (retryAxios_other_error ids retries delay w st Hup Hst).
    do 2 eexists. split; [reflexivity|]. auto.
Qed.

(** X5: a refresh that passes the gate and whose call fails leaves the
    stored list and the cache as they were and does not throw, but it has
    recorded the time of the call: a refresh less than [API_CALL_INTERVAL]
    later is skipped, although no prices were fetched. *)
Theorem failed_refresh_uses_interval (w : world) (t : Z) :
  API_CALL_INTERVAL <= clock w - lastApiCallTime w ->
  store w <> [] ->
  refresh_fails w ->
  t - clock w < API_CALL_INTERVAL ->
  fst (fetchAndCachePrices w) = Ok tt /\
  store (exec fetchAndCachePrices w) = store w /\
  portfolioCache (exec fetchAndCachePrices w) = portfolioCache w /\
  lastApiCallTime (exec fetchAndCachePrices w) = clock w /\
  fetchAndCachePrices (set_clock t (exec fetchAndCachePrices w)) =
    (Ok tt, emit (EvConsole LogSkipping)
              (set_clock t (exec fetchAndCachePrices w))).
Proof.
  intros Hgate Hne Hfail Ht.
  assert (H : fst (fetchAndCachePrices w) = Ok tt /\
              store (exec fetchAndCachePrices w) = store w /\
              portfolioCache (exec fetchAndCachePrices w) = portfolioCache w /\
              lastApiCallTime (exec fetchAndCachePrices w) = clock w).
  { unfold exec. rewrite fetchAndCachePrices_run.
    rewrite (gate_open w Hgate), (store_not_empty w Hne). cbv zeta.
    match goal with |- context [retryAxios ?i 5 1000 ?w1] =>
      destruct (retryAxios_fails i 5 1000 w1) as (e & w' & Hrun & Hs & Hc & Hl)
    end.
    { destruct Hfail as [Hlim|Hst]; [left|right]; assumption. }
    rewrite Hrun. fields. auto. }
  destruct H as (H1 & H2 & H3 & H4). repeat split; try assumption.
  rewrite fetchAndCachePrices_run. fields. rewrite H4.
  destruct (Z.ltb_spec (t - clock w) API_CALL_INTERVAL); [reflexivity|lia].
Qed.

Lemma failed_refresh_uses_interval_witness :
  lastApiCallTime
    (exec fetchAndCachePrices (world0 [bitcoin_unpriced] CacheObj always_429))
  = 1000000 /\
  store
    (exec fetchAndCachePrices (world0 [bitcoin_unpriced] CacheObj always_429))
  = [bitcoin_unpriced].
Proof.
  destruct (failed_refresh_uses_interval
              (world0 [bitcoin_unpriced] CacheObj always_429) 1000001)
    as (_ & Hs & _ & Hl & _).
  - unfold API_CALL_INTERVAL. cbn. lia.
  - discriminate.
  - left. intros k _. reflexivity.
  - unfold API_CALL_INTERVAL. cbn. lia.
  - split; [exact Hl|exact Hs].
Defined.

(** X6: the three background paths contain every failure of the price
    feed: whatever the world and the answers, the periodic refresh, the
    on-demand fetch and the background pass return normally. *)
Theorem background_paths_never_throw (w : world) (coinId : string) :
  fst (fetchAndCachePrices w) = Ok tt /\
  fst (fetchCoinPrice coinId w) = Ok tt /\
  fst (background_update w) = Ok tt.
Proof.
  split; [|split].
  - rewrite fetchAndCachePrices_run. reflexivity.
  - rewrite fetchCoinPrice_run. reflexivity.
  - destruct (background_update_run w) as (w' & Hrun & _).
    rewrite Hrun. reflexivity.
Qed.

Lemma reads_fail_on_object_cache w coinId :
  portfolioCache w = CacheObj ->
  GET_portfolio w = (Ok (ServerError TypeError), w) /\
  GET_coin_price coinId w = (Ok (ServerError TypeError), w).
Proof.
  intros H. unfold GET_portfolio, GET_coin_price. unfold_m. rewrite H.
  split; reflexivity.
Qed.

(** X7: after a refresh has found the portfolio empty, the cache is the
    object [{}] and both reads fail: the portfolio read and the price read
    answer 500 and start nothing, until a later refresh or an add or a
    removal replaces the cache. *)
Theorem reads_fail_after_empty_refresh (w : world) (coinId : string) :
  API_CALL_INTERVAL <= clock w - lastApiCallTime w ->
  store w = [] ->
  GET_portfolio (exec fetchAndCachePrices w) =
    (Ok (ServerError TypeError), exec fetchAndCachePrices w) /\
  GET_coin_price coinId (exec fetchAndCachePrices w) =
    (Ok (ServerError TypeError), exec fetchAndCachePrices w).
Proof.
  intros Hgate Hs. apply reads_fail_on_object_cache.
  unfold exec. rewrite fetchAndCachePrices_run, (gate_open w Hgate), Hs.
  reflexivity.
Qed.

Lemma reads_fail_after_empty_refresh_witness :
  fst (GET_portfolio
         (exec fetchAndCachePrices
            (world0 [] (CacheArr [bitcoin_priced 0]) bitcoin_quote))) =
    Ok (ServerError TypeError).
Proof.
  destruct (reads_fail_after_empty_refresh
              (world0 [] (CacheArr [bitcoin_priced 0]) bitcoin_quote) "bitcoin")
    as [H _].
  - unfold API_CALL_INTERVAL. cbn. lia.
  - reflexivity.
  - rewrite H. reflexivity.
Defined.

Lemma first_holding_map (f : item -> item) coinId l :
  (forall it, coin (f it) = coin it) ->
  first_holding coinId (map f l) = option_map f (first_holding coinId l).
Proof.
  intros Hf. unfold first_holding. induction l as [|x l IH]; [reflexivity|].
  cbn [map List.find]. rewrite Hf.
  destruct (String.eqb (coin x) coinId); [reflexivity|exact IH].
Qed.

(** X8: after a refresh that passed the gate and was answered at once,
    the price read of a coin that is held and that the answer quotes with
    a number other than 0 answers that number, and as value the amount of
    the first holding of the coin times it. *)
Theorem price_read_after_refresh (w : world) (data : list feed_coin)
    (coinId : string) (it : item) (c : feed_coin) (q : Q) :
  API_CALL_INTERVAL <= clock w - lastApiCallTime w ->
  upstream w (requests w) = Resolve data ->
  first_holding coinId (store w) = Some it ->
  index_by_id data !! coinId = Some c ->
  current_price c = VNum (Num q) ->
  ~ (q == 0)%Q ->
  fst (GET_coin_price coinId (exec fetchAndCachePrices w)) =
    Ok (PriceJson (VNum (Num q))
          (ToFixed (num_mul (amount it) (Num q)) 2)).
Proof.
  intros Hgate Hup Hit Hc Hp Hq.
  assert (Hne : store w <> []).
  { intros H. rewrite H in Hit. discriminate. }
  assert (Hcoin : coin it = coinId).
  { unfold first_holding in Hit. apply find_some in Hit as [_ H].
    apply String.eqb_eq, H. }
  destruct (fetchAndCachePrices_answered w data Hgate Hne Hup)
    as (Hs & Hcache & _).
  rewrite (GET_coin_price_run coinId _ _ Hcache). cbn [fst]. rewrite Hs.
  rewrite first_holding_map by apply refreshed_coin.
  rewrite Hit. cbn [option_map]. unfold refreshed.
  rewrite Hcoin, Hc, Hp. cbn [truthy].
  assert (Hnz : Qeq_bool q 0 = false).
  { destruct (Qeq_bool q 0) eqn:E; [|reflexivity].
    apply Qeq_bool_eq in E. contradiction. }
  rewrite Hnz. reflexivity.
Qed.

Lemma price_read_after_refresh_witness :
  fst (GET_coin_price "bitcoin"
         (exec fetchAndCachePrices
            (world0 [bitcoin_unpriced] CacheObj bitcoin_quote))) =
    Ok (PriceJson (VNum (Num 50000)) (ToFixed (Num 100000) 2)).
Proof.
  apply (price_read_after_refresh
           (world0 [bitcoin_unpriced] CacheObj bitcoin_quote)
           [FeedCoin "bitcoin" (VNum (Num 50000)) "Bitcoin" "btc"]
           "bitcoin" bitcoin_unpriced
           (FeedCoin "bitcoin" (VNum (Num 50000)) "Bitcoin" "btc") 50000).
  - unfold API_CALL_INTERVAL. cbn. lia.
  - reflexivity.
  - reflexivity.
  - reflexivity.
  - reflexivity.
  - intros H. discriminate H.
Defined.

(** ** Further properties of the portfolio read *)

Lemma portfolio_row_renderable it totalValue w :
  renderable it = true ->
  exists row totalValue',
    portfolio_row it totalValue w = (Ok (row, totalValue'), w) /\
    row_matches it row.
Proof.
  unfold renderable, portfolio_row, row_matches, priced.
  destruct (lastPrice it) as [p|].
  - destruct (truthy (usd p)) eqn:Ht.
    + destruct (usd p) as [| | |n| |] eqn:Hu; try discriminate.
      destruct (symbol it) as [s|]; [|discriminate]. intros _.
      do 2 eexists. split; [reflexivity|]. cbn [line_coin line_amount
        line_cached line_price line_value line_name].
      split; [reflexivity|]. split; [reflexivity|]. split; [reflexivity|].
      split; [discriminate|].
      intros p' n' _ [= <-] Hn. rewrite Hu in Hn. injection Hn as <-.
      split; reflexivity.
    + intros _. do 2 eexists. split; [reflexivity|]. cbn [line_coin line_amount
        line_cached line_price line_value line_name].
      split; [reflexivity|]. split; [reflexivity|]. split; [reflexivity|].
      split; [auto|discriminate].
  - intros _. do 2 eexists. split; [reflexivity|]. cbn [line_coin line_amount
        line_cached line_price line_value line_name].
    split; [reflexivity|]. split; [reflexivity|]. split; [reflexivity|].
    split; [auto|discriminate].
Qed.

Lemma portfolio_row_not_renderable it totalValue w :
  renderable it = false ->
  portfolio_row it totalValue w = (Throw TypeError, w).
Proof.
  unfold renderable, portfolio_row.
  destruct (lastPrice it) as [p|]; [|discriminate].
  destruct (truthy (usd p)); [|discriminate].
  destruct (usd p); try reflexivity.
  destruct (symbol it); [discriminate|reflexivity].
Qed.

Lemma portfolio_rows_renderable items : forall rows0 totalValue w,
  forallb renderable items = true ->
  exists rows totalValue',
    portfolio_rows items rows0 totalValue w = (Ok (rows0 ++ rows, totalValue'), w) /\
    Forall2 row_matches items rows.
Proof.
  induction items as [|it items IH]; intros rows0 totalValue w Hall.
  - exists [], totalValue. rewrite app_nil_r. split; [reflexivity|constructor].
  - cbn [forallb] in Hall. apply andb_true_iff in Hall as [Hit Hall].
    destruct (portfolio_row_renderable it totalValue w Hit)
      as (row & tot' & Hrow & Hm).
    destruct (IH (rows0 ++ [row]) tot' w Hall) as (rows & tot'' & Hrows & Hms).
    exists (row :: rows), tot''. cbn [portfolio_rows].
    unfold mbind, M_bind. rewrite Hrow, Hrows, <- app_assoc.
    split; [reflexivity|]. constructor; assumption.
Qed.

Lemma portfolio_rows_not_renderable items : forall rows0 totalValue w,
  forallb renderable items = false ->
  portfolio_rows items rows0 totalValue w = (Throw TypeError, w).
Proof.
  induction items as [|it items IH]; intros rows0 totalValue w Hall;
    [discriminate|].
  cbn [forallb portfolio_rows] in *. unfold mbind, M_bind.
  destruct (renderable it) eqn:Hit.
  - destruct (portfolio_row_renderable it totalValue w Hit)
      as (row & tot' & Hrow & _).
    rewrite Hrow. apply IH. exact Hall.
  - rewrite (portfolio_row_not_renderable it totalValue w Hit). reflexivity.
Qed.

Lemma GET_portfolio_renderable w items :
  portfolioCache w = CacheArr items ->
  forallb renderable items = true ->
  exists rows total,
    fst (GET_portfolio w) = Ok (PortfolioJson rows total) /\
    Forall2 row_matches items rows.
Proof.
  intros Hc Hall. unfold GET_portfolio. unfold_m. rewrite Hc.
  cbn [as_array]. unfold_m.
  destruct (portfolio_rows_renderable items [] (Num 0) w Hall)
    as (rows & tot & Hrows & Hm).
  rewrite Hrows. cbn [app].
  destruct (background_update_run w) as (w' & Hrun & _). rewrite Hrun.
  do 2 eexists. split; [reflexivity|exact Hm].
Qed.

(** X9: with the cache holding a list, the portfolio read answers 200
    exactly when every cached holding either has no price to show or has
    a number for price and a symbol. Its lines then follow the holdings
    one for one: same coin and amount, [cached] set when there is a price,
    price and value "N/A" when there is none, value the amount times the
    price to two decimals when there is one. In the other case the
    answer is 500 and nothing else happens. *)
Theorem portfolio_read_outcome (w : world) (items : list item) :
  portfolioCache w = CacheArr items ->
  (forallb renderable items = true ->
   exists rows total,
     fst (GET_portfolio w) = Ok (PortfolioJson rows total) /\
     Forall2 row_matches items rows) /\
  (forallb renderable items = false ->
   GET_portfolio w = (Ok (ServerError TypeError), w)).
Proof.
  intros Hc. split.
  - apply GET_portfolio_renderable, Hc.
  - intros Hall. unfold GET_portfolio. unfold_m. rewrite Hc.
    cbn [as_array]. unfold_m.
    rewrite (portfolio_rows_not_renderable items [] (Num 0) w Hall).
    reflexivity.
Qed.

Lemma portfolio_read_outcome_witness :
  (exists rows total,
     fst (GET_portfolio
            (world0 [] (CacheArr [bitcoin_priced 0; bitcoin_unpriced])
               always_429)) = Ok (PortfolioJson rows total) /\
     map line_cached rows = [true; false]) /\
  fst (GET_portfolio
         (world0 [] (CacheArr [new_holding "bitcoin" (VNum (Num 2))])
            always_429)) = Ok (ServerError TypeError).
Proof.
  split.
  - destruct (portfolio_read_outcome
                (world0 [] (CacheArr [bitcoin_priced 0; bitcoin_unpriced])
                   always_429)
                [bitcoin_priced 0; bitcoin_unpriced] eq_refl) as [H _].
    destruct (H eq_refl) as (rows & total & Hr & Hm).
    exists rows, total. split; [exact Hr|].
    inversion Hm as [|? r1 ? rs1 (_ & _ & Hc1 & _) Hm1]; subst.
    inversion Hm1 as [|? r2 ? rs2 (_ & _ & Hc2 & _) Hm2]; subst.
    inversion Hm2; subst. cbn. rewrite Hc1, Hc2. reflexivity.
  - destruct (portfolio_read_outcome
                (world0 [] (CacheArr [new_holding "bitcoin" (VNum (Num 2))])
                   always_429)
                [new_holding "bitcoin" (VNum (Num 2))] eq_refl) as [_ H].
    rewrite (H eq_refl). reflexivity.
Defined.

Lemma portfolio_rows_pure items : forall rows0 totalValue,
  exists r, forall w, portfolio_rows items rows0 totalValue w = (r, w).
Proof.
  induction items as [|it items IH]; intros rows0 totalValue.
  - eexists. intros w. reflexivity.
  - destruct (renderable it) eqn:Hit.
    + destruct (portfolio_row_renderable it totalValue
                  (world0 [] CacheObj always_429) Hit)
        as (row & tot' & Hrow0 & _).
      destruct (IH (rows0 ++ [row]) tot') as [r Hr].
      exists r. intros w. cbn [portfolio_rows]. unfold mbind, M_bind.
      destruct (portfolio_row_renderable it totalValue w Hit)
        as (row1 & tot1 & Hrow & _).
      assert (Hsame : (row1, tot1) = (row, tot')).
      { pose proof (portfolio_row_world it totalValue w) as Hw.
        clear -Hrow Hrow0.
        unfold portfolio_row in *.
        destruct (truthy _);
          [destruct (match lastPrice it with
                     | Some p => usd p | None => VUndef end);
             try discriminate; destruct (symbol it); try discriminate|];
          unfold mret, M_ret, throw in *; congruence. }
      rewrite Hrow. injection Hsame as -> ->. apply Hr.
    + exists (Throw TypeError). intros w. cbn [portfolio_rows].
      unfold mbind, M_bind.
      rewrite (portfolio_row_not_renderable it totalValue w Hit). reflexivity.
Qed.

(** X10: the portfolio read answers from the cache alone: two worlds with
    the same cache get the same answer, whatever their stored lists, their
    clocks and the answers of the price feed; and the read, with the
    background pass it starts, changes neither the cache nor the time of
    the last refresh call. *)
Theorem portfolio_read_uses_cache_only (w1 w2 : world) :
  portfolioCache w1 = portfolioCache w2 ->
  fst (GET_portfolio w1) = fst (GET_portfolio w2) /\
  portfolioCache (exec GET_portfolio w1) = portfolioCache w1 /\
  lastApiCallTime (exec GET_portfolio w1) = lastApiCallTime w1.
Proof.
  intros Hc.
  assert (Hrun : forall w,
    exists r, fst (GET_portfolio w) = r /\
      (forall w', portfolioCache w' = portfolioCache w ->
                  fst (GET_portfolio w') = r) /\
      portfolioCache (exec GET_portfolio w) = portfolioCache w /\
      lastApiCallTime (exec GET_portfolio w) = lastApiCallTime w).
  { intros w. unfold exec, GET_portfolio. unfold_m.
    destruct (portfolioCache w) as [|items] eqn:Hcw; cbn [as_array]; unfold_m.
    - eexists. split; [reflexivity|]. split; [|auto].
      intros w' ->. reflexivity.
    - destruct (portfolio_rows_pure items [] (Num 0)) as [r Hr].
      rewrite (Hr w). destruct r as [[rows tot]|e].
      + destruct (background_update_run w) as (v & Hv & _ & Hvc & Hvl & _).
        rewrite Hv. eexists. split; [reflexivity|]. split.
        * intros w' ->. cbn [as_array]. unfold_m. rewrite (Hr w').
          destruct (background_update_run w') as (v' & Hv' & _).
          rewrite Hv'. reflexivity.
        * cbn [snd]. split; congruence.
      + eexists. split; [reflexivity|]. split; [|auto].
        intros w' ->. cbn [as_array]. unfold_m. rewrite (Hr w'). reflexivity. }
  destruct (Hrun w1) as (r & Hr1 & Hall & Hc1 & Hl1).
  split; [|split; assumption].
  rewrite Hr1. symmetry. apply Hall. symmetry. exact Hc.
Qed.

Lemma portfolio_read_uses_cache_only_witness :
  fst (GET_portfolio (world0 [] (CacheArr [bitcoin_priced 0]) always_429)) =
  fst (GET_portfolio
         (world0 [bitcoin_unpriced] (CacheArr [bitcoin_priced 0]) bitcoin_quote)).
Proof.
  destruct (portfolio_read_uses_cache_only
              (world0 [] (CacheArr [bitcoin_priced 0]) always_429)
              (world0 [bitcoin_unpriced] (CacheArr [bitcoin_priced 0])
                 bitcoin_quote) eq_refl) as [H _].
  exact H.
Defined.

Lemma row_matches_coins items rows :
  Forall2 row_matches items rows -> map line_coin rows = coins items.
Proof.
  induction 1 as [|it row items rows (Hc & _) _ IH]; [reflexivity|].
  cbn. unfold coins in IH. rewrite Hc, IH. reflexivity.
Qed.

Lemma row_matches_cached items rows :
  Forall2 row_matches items rows -> map line_cached rows = map priced items.
Proof.
  induction 1 as [|it row items rows (_ & _ & Hc & _) _ IH]; [reflexivity|].
  cbn. rewrite Hc, IH. reflexivity.
Qed.

(** X11: after a refresh that passed the gate and was answered at once
    with, for every holding, a quote whose price is a number other than
    0, the portfolio read answers 200 with one line per holding, in the
    order of the stored list, every line marked [cached]. *)
Theorem portfolio_read_after_refresh (w : world) (data : list feed_coin) :
  API_CALL_INTERVAL <= clock w - lastApiCallTime w ->
  store w <> [] ->
  upstream w (requests w) = Resolve data ->
  (forall it, In it (store w) ->
     exists c q, index_by_id data !! coin it = Some c /\
                 current_price c = VNum (Num q) /\ ~ (q == 0)%Q) ->
  exists rows total,
    fst (GET_portfolio (exec fetchAndCachePrices w)) =
      Ok (PortfolioJson rows total) /\
    map line_coin rows = coins (store w) /\
    Forall (fun row => line_cached row = true) rows.
Proof.
  intros Hgate Hne Hup Hall.
  destruct (fetchAndCachePrices_answered w data Hgate Hne Hup)
    as (Hs & Hcache & _).
  assert (Hq : forall it, In it (store w) ->
             priced (refreshed (index_by_id data) (clock w) it) = true /\
             renderable (refreshed (index_by_id data) (clock w) it) = true).
  { intros it Hin. destruct (Hall it Hin) as (c & q & Hc & Hp & Hnz).
    unfold refreshed. rewrite Hc, Hp. cbn [truthy].
    assert (Qeq_bool q 0 = false) as ->.
    { destruct (Qeq_bool q 0) eqn:E; [|reflexivity].
      apply Qeq_bool_eq in E. contradiction. }
    cbn. unfold priced, renderable. cbn.
    assert (Qeq_bool q 0 = false) as ->.
    { destruct (Qeq_bool q 0) eqn:E; [|reflexivity].
      apply Qeq_bool_eq in E. contradiction. }
    split; reflexivity. }
  destruct (GET_portfolio_renderable (exec fetchAndCachePrices w)
              (store (exec fetchAndCachePrices w)) Hcache)
    as (rows & total & Hr & Hm).
  { rewrite Hs, forallb_forall. intros x Hx.
    apply in_map_iff in Hx as (it & <- & Hin). apply Hq, Hin. }
  exists rows, total. split; [exact Hr|]. split.
  - rewrite (row_matches_coins _ _ Hm), Hs. apply coins_refreshed.
  - apply Forall_forall. intros row Hrow.
    apply list_elem_of_In in Hrow.
    assert (Hc : In (line_cached row) (map line_cached rows))
      by (apply in_map; exact Hrow).
    rewrite (row_matches_cached _ _ Hm), Hs, map_map in Hc.
    apply in_map_iff in Hc as (it & Hit & Hin').
    rewrite <- Hit. apply Hq, Hin'.
Qed.

Lemma portfolio_read_after_refresh_witness :
  exists rows total,
    fst (GET_portfolio
           (exec fetchAndCachePrices
              (world0 [bitcoin_unpriced] CacheObj bitcoin_quote))) =
      Ok (PortfolioJson rows total) /\
    map line_coin rows = ["bitcoin"].
Proof.
  destruct (portfolio_read_after_refresh
              (world0 [bitcoin_unpriced] CacheObj bitcoin_quote)
              [FeedCoin "bitcoin" (VNum (Num 50000)) "Bitcoin" "btc"])
    as (rows & total & Hr & Hc & _).
  - unfold API_CALL_INTERVAL. cbn. lia.
  - discriminate.
  - reflexivity.
  - intros it [<-|[]].
    exists (FeedCoin "bitcoin" (VNum (Num 50000)) "Bitcoin" "btc"), 50000%Q.
    repeat split. intros H. discriminate H.
  - exists rows, total. split; [exact Hr|exact Hc].
Defined.

(** ** Further properties of the on-demand fetch *)

(** X12: an on-demand fetch answered at once writes the first element of
    the answer, whatever its id and whatever its price, into every holding
    of the requested coin, stamped with the time of the fetch, and makes
    the saved list the cache; an empty answer changes nothing but the
    count of requests and the trace of the one request. *)
Theorem on_demand_fetch_writes_first_answer (w : world) (coinId : string) :
  (forall c rest,
     upstream w (requests w) = Resolve (c :: rest) ->
     portfolioCache (exec (fetchCoinPrice coinId) w) =
       CacheArr (store (exec (fetchCoinPrice coinId) w)) /\
     forall (i : nat) (it : item),
       store w !! i = Some it -> coin it = coinId ->
       store (exec (fetchCoinPrice coinId) w) !! i =
         Some {| coin := coin it; amount := amount it;
                 name := Some (feed_name c); symbol := Some (feed_symbol c);
                 lastPrice := Some {| usd := current_price c;
                                      timestamp := clock w |} |}) /\
  (upstream w (requests w) = Resolve [] ->
   exec (fetchCoinPrice coinId) w =
     count_request (emit (EvGet (IdsSingle coinId) (Some 5%nat)) w)).
Proof.
  split.
  - intros c rest Hup. unfold exec. rewrite fetchCoinPrice_run.
    rewrite (retryAxios_answered _ _ _ _ _ Hup). fields.
    split; [reflexivity|]. intros i it Hi Hc.
    rewrite lookup_map, Hi. cbn [option_map]. unfold quoted.
    rewrite <- Hc, String.eqb_refl. reflexivity.
  - intros Hup. unfold exec. rewrite fetchCoinPrice_run.
    rewrite (retryAxios_answered _ _ _ _ _ Hup). reflexivity.
Qed.

Lemma on_demand_fetch_writes_first_answer_witness :
  store (exec (fetchCoinPrice "bitcoin")
           (world0 [bitcoin_unpriced] CacheObj bitcoin_quote)) !! 0%nat =
    Some (bitcoin_priced 1000000).
Proof.
  destruct (on_demand_fetch_writes_first_answer
              (world0 [bitcoin_unpriced] CacheObj bitcoin_quote) "bitcoin")
    as [H _].
  destruct (H (FeedCoin "bitcoin" (VNum (Num 50000)) "Bitcoin" "btc") []
              eq_refl) as [_ H'].
  exact (H' 0%nat bitcoin_unpriced eq_refl eq_refl).
Defined.

(** ** The timer *)

Lemma skipped_app tr1 tr2 : skipped (tr1 ++ tr2) = (skipped tr1 + skipped tr2)%nat.
Proof. unfold skipped. rewrite List.filter_app, length_app. reflexivity. Qed.

Lemma started_app tr1 tr2 : started (tr1 ++ tr2) = (started tr1 + started tr2)%nat.
Proof. unfold started. rewrite List.filter_app, length_app. reflexivity. Qed.

Lemma retryAxios_logs ids retries : forall delay w,
  exists res w',
    retryAxios ids retries delay w = (res, w') /\
    skipped (trace w') = skipped (trace w) /\
    started (trace w') = started (trace w).
Proof.
  induction retries as [|r IH]; intros delay w.
  - cbn [retryAxios]. unfold try_catch, axios_get, throw.
    destruct (upstream w (requests w)); do 2 eexists;
      (split; [reflexivity|]); fields;
      rewrite skipped_app, started_app; cbn; lia.
  - cbn [retryAxios]. unfold try_catch at 1. unfold axios_get.
    destruct (upstream w (requests w)) as [data|st].
    + do 2 eexists. split; [reflexivity|]. fields.
      rewrite skipped_app, started_app. cbn. lia.
    + destruct (is_429 (AxiosError st)).
      * unfold mbind, M_bind, console, sleep.
        cbn -[retryAxios Z.mul].
        match goal with |- context [retryAxios ids r ?d ?w1] =>
          destruct (IH d w1) as (res & w' & Hrun & Hsk & Hst)
        end.
        rewrite Hrun. exists res, w'. split; [reflexivity|].
        rewrite Hsk, Hst. fields.
        rewrite !skipped_app, !started_app. cbn. lia.
      * unfold throw. do 2 eexists. split; [reflexivity|]. fields.
        rewrite skipped_app, started_app. cbn. lia.
Qed.

Lemma refresh_on_schedule w :
  API_CALL_INTERVAL <= clock w - lastApiCallTime w ->
  skipped (trace (exec fetchAndCachePrices w)) = skipped (trace w) /\
  started (trace (exec fetchAndCachePrices w)) = S (started (trace w)) /\
  lastApiCallTime (exec fetchAndCachePrices w) = clock w.
Proof.
  intros Hgate. unfold exec. rewrite fetchAndCachePrices_run.
  rewrite (gate_open w Hgate). cbv zeta.
  destruct (length (coins (store w)) =? 0)%nat.
  - fields. rewrite !skipped_app, !started_app. cbn. lia.
  - match goal with |- context [retryAxios ?i 5 1000 ?w1] =>
      destruct (retryAxios_logs i 5 1000 w1) as (res & w' & Hrun & Hsk & Hst);
      destruct (retryAxios_frame i 5 1000 w1)
        as (res' & w'' & evs & Hrun' & _ & _ & Hl & _)
    end.
    rewrite Hrun in Hrun'. injection Hrun' as <- <-. rewrite Hrun.
    fields. rewrite skipped_app in Hsk. rewrite started_app in Hst.
    cbn in Hsk, Hst.
    destruct res; fields; rewrite ?skipped_app, ?started_app; cbn;
      repeat split; try lia; exact Hl.
Qed.

Lemma last_after_first (l : list Z) : forall x d,
  List.last (x :: l) d = List.last l x.
Proof.
  induction l as [|y l IH]; intros x d; [reflexivity|].
  change (List.last (x :: y :: l) d) with (List.last (y :: l) d).
  rewrite !IH. reflexivity.
Qed.

(** X13: the calls that [initCacheManager] sets going, the first and
    those of the timer, are never skipped as long as each comes at least
    [API_CALL_INTERVAL] after the one before, whether the earlier calls
    were answered or failed: each passes the gate, and the time of the
    last one is what the gate remembers. *)
Theorem timer_calls_never_skipped (times : list Z) (w : world) :
  on_schedule (lastApiCallTime w) times ->
  skipped (trace (run (initCacheManager times) w)) = skipped (trace w) /\
  started (trace (run (initCacheManager times) w)) =
    (started (trace w) + length times)%nat /\
  lastApiCallTime (run (initCacheManager times) w) =
    List.last times (lastApiCallTime w).
Proof.
  revert w. induction times as [|t times IH]; intros w Hs.
  - cbn. repeat split. lia.
  - destruct Hs as [Ht Hs]. cbn [initCacheManager map run fire].
    destruct (refresh_on_schedule (set_clock t w)) as (Hsk & Hst & Hl).
    { fields. lia. }
    fields.
    destruct (IH (exec fetchAndCachePrices (set_clock t w))) as (H1 & H2 & H3).
    { rewrite Hl. exact Hs. }
    unfold initCacheManager in *. rewrite H1, H2, H3, Hsk, Hst, Hl.
    split; [reflexivity|]. split; [cbn [length]; lia|].
    symmetry. apply last_after_first.
Qed.

Lemma timer_calls_never_skipped_witness :
  skipped (trace (run (initCacheManager [1000000; 1030000; 1060005])
                    (world0 [bitcoin_unpriced] CacheObj always_429))) = 0%nat /\
  started (trace (run (initCacheManager [1000000; 1030000; 1060005])
                    (world0 [bitcoin_unpriced] CacheObj always_429))) = 3%nat.
Proof.
  destruct (timer_calls_never_skipped [1000000; 1030000; 1060005]
              (world0 [bitcoin_unpriced] CacheObj always_429))
    as (H1 & H2 & _).
  - cbn [on_schedule lastApiCallTime world0]. unfold API_CALL_INTERVAL. lia.
  - split; [exact H1|exact H2].
Defined.

(** ** Further properties of adding and removing *)

Lemma without_app coinId l1 l2 :
  without coinId (l1 ++ l2) = without coinId l1 ++ without coinId l2.
Proof. apply List.filter_app. Qed.

Lemma without_quoted coinId c t l :
  without coinId (map (quoted coinId c t) l) = without coinId l.
Proof.
  induction l as [|it l IH]; [reflexivity|].
  cbn [map]. rewrite !without_cons, IH. unfold quoted.
  destruct (String.eqb (coin it) coinId) eqn:E.
  - cbn [with_quote coin]. rewrite E. reflexivity.
  - rewrite E. reflexivity.
Qed.

Lemma added_accepted coinId amount w :
  fst (POST_portfolio_add (Some coinId) amount w) <> Ok InvalidCoinOrAmount ->
  POST_portfolio_add (Some coinId) amount w =
    (Ok (AddedJson coinId (added coinId amount (store w))),
     exec (fetchCoinPrice coinId)
       (set_portfolioCache (CacheArr (added coinId amount (store w)))
          (set_store (added coinId amount (store w))
             (emit (EvSave (added coinId amount (store w))) w)))).
Proof.
  rewrite POST_portfolio_add_run.
  destruct (no_coinId (Some coinId) || isNaN amount
            || num_le (to_number amount) (Num 0));
    [intros H; contradiction H; reflexivity|reflexivity].
Qed.

(** X14: adding a coin that is not in the stored list and then removing
    it gives back the stored list as it was, whatever the price feed
    answered to the fetch in between; the removal answers 200 and the
    cache is that list. *)
Theorem add_then_remove_restores (coinId : string) (amount : jsval)
    (w : world) :
  ~ In coinId (coins (store w)) ->
  fst (POST_portfolio_add (Some coinId) amount w) <> Ok InvalidCoinOrAmount ->
  fst (DELETE_portfolio_remove coinId
         (exec (POST_portfolio_add (Some coinId) amount) w)) =
    Ok (RemovedJson coinId) /\
  store (exec (DELETE_portfolio_remove coinId)
           (exec (POST_portfolio_add (Some coinId) amount) w)) = store w /\
  portfolioCache (exec (DELETE_portfolio_remove coinId)
                    (exec (POST_portfolio_add (Some coinId) amount) w)) =
    CacheArr (store w).
Proof.
  intros Hn Hok.
  set (l := added coinId amount (store w)).
  set (v := set_portfolioCache (CacheArr l) (set_store l (emit (EvSave l) w))).
  assert (E : exec (POST_portfolio_add (Some coinId) amount) w =
              exec (fetchCoinPrice coinId) v).
  { unfold exec at 1. rewrite (added_accepted _ _ _ Hok). reflexivity. }
  rewrite E. clear E.
  assert (Hl : l = store w ++ [new_holding coinId amount]).
  { apply added_new, first_holding_none, Hn. }
  assert (Hw : without coinId (store (exec (fetchCoinPrice coinId) v)) = store w).
  { destruct (fetchCoinPrice_store coinId v) as [[Hs _]|(c & t & Hs & _)];
      rewrite Hs; try rewrite without_quoted; subst v; fields;
      rewrite Hl, without_app, (without_absent _ _ Hn), without_cons;
      cbn [new_holding coin]; rewrite String.eqb_refl; apply app_nil_r. }
  assert (Hlen : (length (store w) <
                  length (store (exec (fetchCoinPrice coinId) v)))%nat).
  { destruct (fetchCoinPrice_store coinId v) as [[Hs _]|(c & t & Hs & _)];
      rewrite Hs; try rewrite length_map; subst v; fields;
      rewrite Hl, length_app; cbn; lia. }
  set (u := exec (fetchCoinPrice coinId) v) in *.
  unfold exec. rewrite DELETE_portfolio_remove_run. rewrite Hw.
  destruct (Nat.ltb_spec (length (store w)) (length (store u))); [|lia].
  fields. auto.
Qed.

Lemma add_then_remove_restores_witness :
  store (exec (DELETE_portfolio_remove "bitcoin")
           (exec (POST_portfolio_add (Some "bitcoin") (VNum (Num 2)))
              (world0 [ether_priced 0] CacheObj bitcoin_quote))) =
    [ether_priced 0].
Proof.
  destruct (add_then_remove_restores "bitcoin" (VNum (Num 2))
              (world0 [ether_priced 0] CacheObj bitcoin_quote))
    as (_ & H & _).
  - cbn. intros [H|[]]. discriminate.
  - cbn. discriminate.
  - exact H.
Defined.

(** X15: a removal leaves the stored list without any entry of the coin,
    the other holdings in their order: the list is shorter by the number
    of entries the coin had, no entry of the coin is left, and removing
    the same coin again answers "not found" and changes nothing. *)
Theorem remove_drops_every_entry (coinId : string) (w : world) :
  store (exec (DELETE_portfolio_remove coinId) w) = without coinId (store w) /\
  (length (store (exec (DELETE_portfolio_remove coinId) w))
   + count_occ String.string_dec (coins (store w)) coinId
   = length (store w))%nat /\
  ~ In coinId (coins (store (exec (DELETE_portfolio_remove coinId) w))) /\
  DELETE_portfolio_remove coinId (exec (DELETE_portfolio_remove coinId) w) =
    (Ok (CoinNotFound coinId), exec (DELETE_portfolio_remove coinId) w).
Proof.
  assert (Hs : store (exec (DELETE_portfolio_remove coinId) w) =
               without coinId (store w)).
  { unfold exec. rewrite DELETE_portfolio_remove_run.
    destruct (Nat.ltb_spec (length (without coinId (store w)))
                (length (store w))) as [Hlt|Hge]; [reflexivity|].
    cbn [snd]. symmetry. apply without_absent, without_same_length.
    pose proof (without_shorter coinId (store w)). lia. }
  split; [exact Hs|]. rewrite Hs.
  split; [apply without_length|]. split; [apply without_gone|].
  rewrite DELETE_portfolio_remove_run, Hs.
  rewrite (without_absent coinId (without coinId (store w)))
    by apply without_gone.
  rewrite Nat.ltb_irrefl. reflexivity.
Qed.

Lemma holdings_added coinId amount l :
  map holding (added coinId amount l) =
    credit coinId (parseFloat amount) (map holding l).
Proof.
  unfold added, first_holding. induction l as [|it l IH]; [reflexivity|].
  cbn [List.find map bump_first credit holding].
  destruct (String.eqb (coin it) coinId) eqn:E; [reflexivity|].
  destruct (List.find _ l) as [x|]; cbn [map app holding] in *;
    rewrite IH; reflexivity.
Qed.

Lemma holdings_quoted coinId c t l :
  map holding (map (quoted coinId c t) l) = map holding l.
Proof.
  rewrite map_map. apply map_ext. intros it. unfold quoted.
  destruct (String.eqb (coin it) coinId); reflexivity.
Qed.

Lemma holdings_fetchCoinPrice coinId w :
  map holding (store (exec (fetchCoinPrice coinId) w)) = map holding (store w).
Proof.
  destruct (fetchCoinPrice_store coinId w) as [[-> _]|(c & t & -> & _)];
    [reflexivity|apply holdings_quoted].
Qed.

Lemma positive_number_accepted coinId q w :
  coinId <> "" -> (0 < q)%Q ->
  fst (POST_portfolio_add (Some coinId) (VNum (Num q)) w) <>
    Ok InvalidCoinOrAmount.
Proof.
  intros Hc Hq. rewrite add_number_amount by exact Hc.
  destruct (Qle_bool q 0) eqn:E; [|discriminate].
  apply Qle_bool_iff in E. exfalso. exact (Qlt_not_le _ _ Hq E).
Qed.


(** X16: an add with a coin id and a positive number for amount answers
    200 and credits the coin, whatever the price feed does: the list in
    the answer, and the stored list once the price fetch is over, hold
    the holdings of before with the amount added to the first holding of
    the coin, or with a new holding of that amount at the end; a new
    holding starts with the coin id for name, "?" for symbol and the
    placeholder price. *)
Theorem add_credits_coin (coinId : string) (q : Q) (w : world) :
  coinId <> "" -> (0 < q)%Q ->
  exists l,
    fst (POST_portfolio_add (Some coinId) (VNum (Num q)) w) =
      Ok (AddedJson coinId l) /\
    map holding l = credit coinId (Num q) (map holding (store w)) /\
    map holding
      (store (exec (POST_portfolio_add (Some coinId) (VNum (Num q))) w)) =
      credit coinId (Num q) (map holding (store w)) /\
    (~ In coinId (coins (store w)) ->
     l = store w ++
           [{| coin := coinId; amount := Num q; name := Some coinId;
               symbol := Some "?";
               lastPrice := Some {| usd := VNA; timestamp := 0 |} |}]).
Proof.
  intros Hc Hq.
  pose proof (added_accepted coinId (VNum (Num q)) w
                (positive_number_accepted coinId q w Hc Hq)) as Hrun.
  exists (added coinId (VNum (Num q)) (store w)).
  unfold exec. rewrite Hrun. cbn [fst snd].
  split; [reflexivity|]. split; [apply holdings_added|].
  split.
  - rewrite holdings_fetchCoinPrice. fields. apply holdings_added.
  - intros Hn. apply added_new, first_holding_none, Hn.
Qed.

Lemma add_credits_coin_witness :
  map holding
    (store (exec (POST_portfolio_add (Some "bitcoin") (VNum (Num 3)))
              (world0 [ether_priced 0; bitcoin_priced 0] CacheObj
                 bitcoin_quote))) =
    [("ethereum", Num 10); ("bitcoin", Num 5)].
Proof.
  destruct (add_credits_coin "bitcoin" 3
              (world0 [ether_priced 0; bitcoin_priced 0] CacheObj bitcoin_quote))
    as (l & _ & _ & H & _).
  - discriminate.
  - reflexivity.
  - rewrite H. reflexivity.
Defined.





(** ** Further properties of the background pass *)

Lemma background_item_cost live it w :
  exists it' w' evs,
    background_item live it w = (Ok it', w') /\
    holding it' = holding it /\
    store w' = store w /\ requests w' = requests w /\
    trace w' = trace w ++ evs /\
    (evs = [] \/ evs = [(clock w, EvSleep 3000)]) /\
    clock w' = clock w + total (pauses evs) /\
    (fresh_at (clock w) it = true -> it' = it /\ evs = []).
Proof.
  assert (Hstale : fresh_at (clock w) it = false ->
    exists it' w',
      (let needsUpdate := true in
       if needsUpdate then
         sleep 3000;;
         match live !! coin it with
         | Some coinData =>
             if has_usd_quote coinData then
               t ← Date_now;
               mret (with_quote (get_prop (current_price coinData) "usd")
                       t coinData it)
             else mret it
         | None => mret it
         end
       else mret it) w = (Ok it', w') /\
      holding it' = holding it /\
      store w' = store w /\ requests w' = requests w /\
      trace w' = trace w ++ [(clock w, EvSleep 3000)] /\
      clock w' = clock w + 3000).
  { intros _. cbv zeta. unfold_m.
    destruct (live !! coin it) as [c|]; [destruct (has_usd_quote c)|];
      do 2 eexists; (split; [reflexivity|]); fields; repeat split. }
  unfold background_item. unfold mbind at 1. unfold M_bind at 1.
  unfold Date_now at 1.
  destruct (fresh_at (clock w) it) eqn:Hf.
  - unfold fresh_at in Hf. destruct (lastPrice it) as [p|]; [|discriminate].
    apply andb_true_iff in Hf as [Ht Hn]. rewrite Ht.
    apply Z.ltb_lt in Hn.
    destruct (Z.leb_spec 300000 (clock w - timestamp p)); [lia|].
    cbn [negb orb]. exists it, w, []. unfold mret, M_ret.
    rewrite app_nil_r. cbn. repeat split; auto. lia.
  - destruct (Hstale eq_refl)
      as (it' & w' & Hrun & Hh & Hs & Hr & Ht & Hc).
    assert (Hneeds :
      match lastPrice it with
      | Some p => negb (truthy (usd p)) || (300000 <=? clock w - timestamp p)
      | None => true
      end = true).
    { unfold fresh_at in Hf. destruct (lastPrice it) as [p|]; [|reflexivity].
      destruct (truthy (usd p)); [|reflexivity]. cbn in *.
      apply Z.ltb_ge in Hf. apply Z.leb_le. exact Hf. }
    cbv zeta in *. rewrite Hneeds. rewrite Hrun.
    exists it', w', [(clock w, EvSleep 3000)].
    split; [reflexivity|].
    repeat split; auto; try discriminate; try (cbn; lia).
Qed.

Lemma background_loop_cost live : forall l w,
  exists l' w' evs,
    forM l (background_item live) w = (Ok l', w') /\
    map holding l' = map holding l /\
    store w' = store w /\ requests w' = requests w /\
    trace w' = trace w ++ evs /\
    attempts evs = 0%nat /\
    Forall (fun ms => ms = 3000) (pauses evs) /\
    (length (pauses evs) <= length l)%nat /\
    clock w' = clock w + total (pauses evs) /\
    (forallb (fresh_at (clock w)) l = true -> l' = l /\ evs = []).
Proof.
  induction l as [|it l IH]; intros w.
  - exists [], w, []. rewrite app_nil_r. cbn. repeat split; auto. lia.
  - cbn [forM]. unfold mbind at 1. unfold M_bind at 1.
    destruct (background_item_cost live it w)
      as (it' & w1 & e1 & Hrun1 & Hh1 & Hs1 & Hr1 & Ht1 & He1 & Hc1 & Hf1).
    rewrite Hrun1.
    destruct (IH w1)
      as (l' & w2 & e2 & Hrun2 & Hh2 & Hs2 & Hr2 & Ht2 & Ha2 & Hp2 & Hn2 & Hc2 & Hf2).
    unfold mbind, M_bind, mret, M_ret. rewrite Hrun2.
    exists (it' :: l'), w2, (e1 ++ e2). split; [reflexivity|].
    rewrite attempts_app, pauses_app, total_app, length_app.
    repeat split.
    + cbn [map]. congruence.
    + congruence.
    + congruence.
    + rewrite Ht2, Ht1, app_assoc. reflexivity.
    + destruct He1 as [->| ->]; cbn; lia.
    + apply Forall_app. split; [|exact Hp2].
      destruct He1 as [->| ->]; repeat constructor.
    + cbn [length]. destruct He1 as [->| ->]; cbn; lia.
    + lia.
    + cbn [forallb] in H. apply andb_true_iff in H as [Hit Hl].
      destruct (Hf1 Hit) as [-> ->].
      rewrite app_nil_r in Ht1. cbn in Hc1.
      assert (Hck : clock w1 = clock w) by lia. rewrite Hck in Hf2.
      destruct (Hf2 Hl) as [-> _]. reflexivity.
    + cbn [forallb] in H. apply andb_true_iff in H as [Hit Hl].
      destruct (Hf1 Hit) as [_ ->]. cbn in Hc1.
      assert (Hck : clock w1 = clock w) by lia. rewrite Hck in Hf2.
      destruct (Hf2 Hl) as [_ ->]. reflexivity.
Qed.

Lemma background_live_data_cost l w :
  exists live w' evs,
    background_live_data l w = (Ok live, w') /\
    store w' = store w /\ clock w' = clock w /\
    trace w' = trace w ++ evs /\
    (attempts evs <= 1)%nat /\ (l = [] -> attempts evs = 0%nat) /\
    pauses evs = [].
Proof.
  unfold background_live_data, try_catch. cbn zeta.
  destruct l as [|it l].
  - exists ∅, w, []. cbn. rewrite app_nil_r. repeat split; auto.
  - cbn [map length Nat.ltb Nat.leb].
    unfold mbind, M_bind, axios_get, mret, M_ret, console.
    destruct (upstream w (requests w)); do 2 eexists;
      [exists [(clock w, EvGet (IdsJoined (map coin (it :: l))) None)]
      |exists [(clock w, EvGet (IdsJoined (map coin (it :: l))) None);
               (clock w, EvConsole (ErrBackgroundAll (AxiosError status0)))]];
      (split; [reflexivity|]); fields; rewrite <- ?app_assoc;
      repeat split; auto; discriminate.
Qed.

Lemma background_update_cost w :
  exists w' evs,
    background_update w = (Ok tt, w') /\
    trace w' = trace w ++ evs /\
    (attempts evs <= 1)%nat /\
    (store w = [] -> attempts evs = 0%nat) /\
    Forall (fun ms => ms = 3000) (pauses evs) /\
    (length (pauses evs) <= length (store w))%nat /\
    clock w' = clock w + total (pauses evs) /\
    map holding (store w') = map holding (store w) /\
    (forallb (fresh_at (clock w)) (store w) = true ->
     store w' = store w /\ clock w' = clock w /\
     In (clock w, EvSave (store w)) (trace w')).
Proof.
  unfold background_update.
  unfold mbind at 1. unfold M_bind at 1. unfold getPortfolio at 1.
  unfold mbind at 1. unfold M_bind at 1.
  destruct (background_live_data_cost (store w) w)
    as (live & w1 & e1 & Hrun1 & Hs1 & Hc1 & Ht1 & Ha1 & Hz1 & Hp1).
  rewrite Hrun1. unfold mbind at 1. unfold M_bind at 1.
  destruct (background_loop_cost live (store w) w1)
    as (l' & w2 & e2 & Hrun2 & Hh2 & Hs2 & Hr2 & Ht2 & Ha2 & Hp2 & Hn2 & Hc2 & Hf).
  rewrite Hrun2. unfold_m. eexists.
  exists (e1 ++ e2 ++ [(clock w2, EvConsole (LogBeforeSave l'));
                       (clock w2, EvSave l');
                       (clock w2, EvConsole LogAfterSave);
                       (clock w2, EvConsole LogCacheUpdatedBackground)]).
  split; [reflexivity|]. fields.
  rewrite !attempts_app, !pauses_app, !total_app, !length_app, Hp1, Ha2.
  change (attempts [(clock w2, EvConsole (LogBeforeSave l'));
                    (clock w2, EvSave l');
                    (clock w2, EvConsole LogAfterSave);
                    (clock w2, EvConsole LogCacheUpdatedBackground)])
    with 0%nat.
  change (pauses [(clock w2, EvConsole (LogBeforeSave l'));
                  (clock w2, EvSave l');
                  (clock w2, EvConsole LogAfterSave);
                  (clock w2, EvConsole LogCacheUpdatedBackground)])
    with (@nil Z).
  rewrite !app_nil_r. cbn [app].
  split; [rewrite Ht2, Ht1, <- !app_assoc; reflexivity|].
  split; [lia|]. split; [intros H; rewrite (Hz1 H); reflexivity|].
  split; [exact Hp2|]. split; [cbn [length]; lia|].
  split; [rewrite Hc2, Hc1; unfold total; cbn [fold_right]; lia|].
  split; [exact Hh2|].
  intros Hfresh. rewrite Hc1 in Hf. destruct (Hf Hfresh) as [-> ->].
  cbn in Hc2. assert (Hck : clock w2 = clock w) by lia.
  split; [reflexivity|]. split; [exact Hck|].
  rewrite Ht2, Ht1, Hck, <- !app_assoc.
  apply in_or_app. right. apply in_or_app. right.
  right. left. reflexivity.
Qed.

(** X18: a background pass sends at most one request to the price feed,
    and none when the stored list is empty; it pauses three seconds at a
    time, at most once per holding, and takes no other time; and it saves
    a list with the same coins and amounts, in the same order, as the list
    it read. *)
Theorem background_pass_cost (w : world) :
  exists evs,
    trace (exec background_update w) = trace w ++ evs /\
    (attempts evs <= 1)%nat /\
    (store w = [] -> attempts evs = 0%nat) /\
    Forall (fun ms => ms = 3000) (pauses evs) /\
    (length (pauses evs) <= length (store w))%nat /\
    clock (exec background_update w) = clock w + total (pauses evs) /\
    map holding (store (exec background_update w)) =
      map holding (store w).
Proof.
  destruct (background_update_cost w)
    as (w' & evs & Hrun & Ht & Ha & Hz & Hp & Hn & Hc & Hh & _).
  exists evs. unfold exec. rewrite Hrun. cbn [snd]. auto 10.
Qed.

Lemma background_pass_cost_witness :
  exists evs,
    trace (exec background_update (world0 [] CacheObj bitcoin_quote)) = evs /\
    attempts evs = 0%nat.
Proof.
  destruct (background_pass_cost (world0 [] CacheObj bitcoin_quote))
    as (evs & Ht & _ & Hz & _).
  exists evs. split; [exact Ht|apply Hz; reflexivity].
Defined.

(** X19: a background pass over a stored list whose holdings all have a
    truthy price less than five minutes old pauses for nothing and saves
    the list exactly as it read it. *)
Theorem background_pass_skips_fresh (w : world) :
  forallb (fresh_at (clock w)) (store w) = true ->
  store (exec background_update w) = store w /\
  clock (exec background_update w) = clock w /\
  In (clock w, EvSave (store w)) (trace (exec background_update w)).
Proof.
  intros Hfresh.
  destruct (background_update_cost w) as (w' & evs & Hrun & H).
  unfold exec. rewrite Hrun. cbn [snd]. apply H, Hfresh.
Qed.

Lemma background_pass_skips_fresh_witness :
  store (exec background_update
           (world0 [bitcoin_priced 900000] CacheObj always_429)) =
    [bitcoin_priced 900000].
Proof.
  destruct (background_pass_skips_fresh
              (world0 [bitcoin_priced 900000] CacheObj always_429) eq_refl)
    as [H _].
  exact H.
Defined.


